(** * mcp-golang: the stateless-HTTP bridge, the message model and list paging

    A shallow embedding of
      - [transport/types.go]            (the four wire messages and [MarshalJSON]),
      - [transport/http/common.go]      ([BaseTransport]: [Send], [Close], [HandleMessage]),
      - the unexported [baseTransport]  (the variant of the bridge that decodes
                                         through the [JSONRPCCommon] envelope),
      - [transport/http/http.go]        ([HTTPTransport.handleRequest], both copies),
      - the client's [HTTPClientTransport.Send],
      - the Gin and chi adapters        ([Handler]),
      - the paged listing of the registry (from the specification),
    followed by the properties the specification states about them. *)

From Stdlib Require Import ZArith String Ascii List Lia Bool.
From stdpp Require Import gmap strings list sorting.

Set Warnings "-register-all".

Local Open Scope string_scope.
Local Open Scope Z_scope.

(** ** Go results *)

(** A Go [(T, error)] pair whose two halves exclude each other. *)
Inductive result (A : Type) : Type :=
  | Ok (a : A)
  | Err (e : string).
Arguments Ok {A} a.
Arguments Err {A} e.

Definition is_Ok {A} (r : result A) : bool :=
  match r with Ok _ => true | Err _ => false end.

#[global] Instance result_ret : MRet result := fun A a => Ok a.
#[global] Instance result_fmap : FMap result := fun A B f r =>
  match r with Ok a => Ok (f a) | Err e => Err e end.
#[global] Instance result_bind : MBind result := fun A B k r =>
  match r with Ok a => k a | Err e => Err e end.

(** ** JSON documents

    [encoding/json] is used by the repository only through [json.Marshal] and
    [json.Unmarshal] on the structs of [transport/types.go].  A JSON text is
    represented by the document it denotes; the bytes of an HTTP body are
    represented by [Some] document, or by [None] when they are not a JSON text
    (the case in which every [json.Unmarshal] of the body fails). *)
Module Json.

Inductive json : Type :=
  | JNull
  | JBool (b : bool)
  | JInt (z : Z)            (* a number literal without fraction or exponent *)
  | JFrac (lit : string)    (* any other number literal, kept as text *)
  | JString (s : string)
  | JArray (l : list json)
  | JObject (fields : list (string * json)).

(** The bytes of a body. *)
Definition Body := option json.

Definition int64_min : Z := - 2 ^ 63.
Definition int64_max : Z := 2 ^ 63 - 1.
Definition in_int64 (z : Z) : bool := (int64_min <=? z) && (z <=? int64_max).

(** [json.RawMessage]: a byte slice that is copied verbatim.  [RawNil] is the
    nil slice, [RawJSON j] a slice holding a text of [j], and [RawBytes s]
    a slice whose bytes [s] are not a JSON text (the empty slice is
    [RawBytes ""]). *)
Inductive RawMessage : Type :=
  | RawNil
  | RawJSON (j : json)
  | RawBytes (s : string).

(** [len(m) == 0], the test behind the [omitempty] tag. *)
Definition raw_empty (m : RawMessage) : bool :=
  match m with
  | RawNil => true
  | RawBytes s => if decide (s = "") then true else false
  | RawJSON _ => false
  end.

(** [RawMessage.MarshalJSON]: nil yields [null]; the encoder then checks that
    what it was handed is a JSON text. *)
Definition marshal_raw (m : RawMessage) : result json :=
  match m with
  | RawNil => Ok JNull
  | RawJSON j => Ok j
  | RawBytes _ => Err "json: error calling MarshalJSON for type json.RawMessage"
  end.

(** Key folding of the decoder: object keys match struct fields ignoring
    case; ASCII letters are upper-cased and the two non-ASCII runes that fold
    to an ASCII letter (U+017F to S, U+212A to K) are replaced. *)
Definition upper (c : ascii) : ascii :=
  let n := N_of_ascii c in
  if ((97 <=? n) && (n <=? 122))%N then ascii_of_N (n - 32) else c.

Definition is_byte (c : ascii) (n : N) : bool := (N_of_ascii c =? n)%N.

Fixpoint foldName (s : string) : string :=
  match s with
  | EmptyString => EmptyString
  | String c r =>
      match r with
      | String c2 r2 =>
          if is_byte c 197 && is_byte c2 191 then String "S" (foldName r2)
          else
            match r2 with
            | String c3 r3 =>
                if is_byte c 226 && is_byte c2 132 && is_byte c3 170
                then String "K" (foldName r3)
                else String (upper c) (foldName r)
            | EmptyString => String (upper c) (foldName r)
            end
      | EmptyString => String (upper c) (foldName r)
      end
  end.

(** Does object key [k] name the struct field tagged [field]? *)
Definition names (k field : string) : bool :=
  if decide (foldName k = foldName field) then true else false.

(** Decoding a value into an [int64] (or [int]) field: [null] leaves the
    field as it is, an integer literal in range is stored, anything else is
    an [UnmarshalTypeError]. *)
Definition into_int (v : json) (old : Z) : option Z :=
  match v with
  | JNull => Some old
  | JInt z => if in_int64 z then Some z else None
  | _ => None
  end.

Definition into_string (v : json) (old : string) : option string :=
  match v with
  | JNull => Some old
  | JString s => Some s
  | _ => None
  end.

(** Into a [*int64] field: [null] sets the pointer to nil. *)
Definition into_int_ptr (v : json) : option (option Z) :=
  match v with
  | JNull => Some None
  | JInt z => if in_int64 z then Some (Some z) else None
  | _ => None
  end.

End Json.
Export Json.

(** ** transport/types.go *)
Module transport.

Definition RequestId := Z.

(** [Code] is an [int] (64 bits).  [Data] is an [interface{}]: it is
    represented by the JSON document it encodes to, [JNull] for the nil
    interface. *)
Module BaseJSONRPCErrorInner.
Record t := mk { Code : Z; Data : json; Message : string }.
Definition zero : t := mk 0 JNull "".
End BaseJSONRPCErrorInner.

Module BaseJSONRPCError.
Record t := mk { Error : BaseJSONRPCErrorInner.t; Id : RequestId; Jsonrpc : string }.
Definition zero : t := mk BaseJSONRPCErrorInner.zero 0 "".
End BaseJSONRPCError.

Module BaseJSONRPCRequest.
Record t := mk { Id : RequestId; Jsonrpc : string; Method : string; Params : RawMessage }.
Definition zero : t := mk 0 "" "" RawNil.
End BaseJSONRPCRequest.

Module BaseJSONRPCNotification.
Record t := mk { Jsonrpc : string; Method : string; Params : RawMessage }.
Definition zero : t := mk "" "" RawNil.
End BaseJSONRPCNotification.

Module BaseJSONRPCResponse.
Record t := mk { Id : RequestId; Jsonrpc : string; Result : RawMessage }.
Definition zero : t := mk 0 "" RawNil.
End BaseJSONRPCResponse.

Definition BaseMessageType := string.
Definition BaseMessageTypeJSONRPCRequestType : BaseMessageType := "request".
Definition BaseMessageTypeJSONRPCNotificationType : BaseMessageType := "notification".
Definition BaseMessageTypeJSONRPCResponseType : BaseMessageType := "response".
Definition BaseMessageTypeJSONRPCErrorType : BaseMessageType := "error".

(** [BaseJsonRpcMessage]: a tag and four pointers, each of which may be nil. *)
Record BaseJsonRpcMessage := mkMessage {
  Type_ : BaseMessageType;
  JsonRpcRequest : option BaseJSONRPCRequest.t;
  JsonRpcNotification : option BaseJSONRPCNotification.t;
  JsonRpcResponse : option BaseJSONRPCResponse.t;
  JsonRpcError : option BaseJSONRPCError.t
}.

Definition NewBaseMessageNotification (notification : BaseJSONRPCNotification.t)
  : BaseJsonRpcMessage :=
  mkMessage BaseMessageTypeJSONRPCNotificationType None (Some notification) None None.

Definition NewBaseMessageRequest (request : BaseJSONRPCRequest.t) : BaseJsonRpcMessage :=
  mkMessage BaseMessageTypeJSONRPCRequestType (Some request) None None None.

Definition NewBaseMessageResponse (response : BaseJSONRPCResponse.t) : BaseJsonRpcMessage :=
  mkMessage BaseMessageTypeJSONRPCResponseType None None (Some response) None.

Definition NewBaseMessageError (error : BaseJSONRPCError.t) : BaseJsonRpcMessage :=
  mkMessage BaseMessageTypeJSONRPCErrorType None None None
    (Some (BaseJSONRPCError.mk (BaseJSONRPCError.Error error)
                               (BaseJSONRPCError.Id error)
                               (BaseJSONRPCError.Jsonrpc error))).

(** *** [json.Marshal] of the structs, field by field in declaration order *)

(** A [json.RawMessage] field tagged [omitempty]. *)
Definition field_omitempty_raw (name : string) (m : RawMessage)
  : result (list (string * json)) :=
  if raw_empty m then Ok [] else j ← marshal_raw m; Ok [(name, j)].

Definition Marshal_ErrorInner (e : BaseJSONRPCErrorInner.t) : json :=
  JObject ([("code", JInt (BaseJSONRPCErrorInner.Code e))]
           ++ match BaseJSONRPCErrorInner.Data e with
              | JNull => []
              | d => [("data", d)]
              end
           ++ [("message", JString (BaseJSONRPCErrorInner.Message e))]).

Definition Marshal_Error (p : option BaseJSONRPCError.t) : result json :=
  match p with
  | None => Ok JNull
  | Some e =>
      Ok (JObject [("error", Marshal_ErrorInner (BaseJSONRPCError.Error e));
                   ("id", JInt (BaseJSONRPCError.Id e));
                   ("jsonrpc", JString (BaseJSONRPCError.Jsonrpc e))])
  end.

Definition Marshal_Request (p : option BaseJSONRPCRequest.t) : result json :=
  match p with
  | None => Ok JNull
  | Some r =>
      ps ← field_omitempty_raw "params" (BaseJSONRPCRequest.Params r);
      Ok (JObject ([("id", JInt (BaseJSONRPCRequest.Id r));
                    ("jsonrpc", JString (BaseJSONRPCRequest.Jsonrpc r));
                    ("method", JString (BaseJSONRPCRequest.Method r))] ++ ps))
  end.

Definition Marshal_Notification (p : option BaseJSONRPCNotification.t) : result json :=
  match p with
  | None => Ok JNull
  | Some n =>
      ps ← field_omitempty_raw "params" (BaseJSONRPCNotification.Params n);
      Ok (JObject ([("jsonrpc", JString (BaseJSONRPCNotification.Jsonrpc n));
                    ("method", JString (BaseJSONRPCNotification.Method n))] ++ ps))
  end.

Definition Marshal_Response (p : option BaseJSONRPCResponse.t) : result json :=
  match p with
  | None => Ok JNull
  | Some r =>
      res ← marshal_raw (BaseJSONRPCResponse.Result r);
      Ok (JObject [("id", JInt (BaseJSONRPCResponse.Id r));
                   ("jsonrpc", JString (BaseJSONRPCResponse.Jsonrpc r));
                   ("result", res)])
  end.

(** The method [MarshalJSON] of [BaseJsonRpcMessage]. *)
Definition MarshalJSON (m : BaseJsonRpcMessage) : result json :=
  if decide (Type_ m = BaseMessageTypeJSONRPCRequestType) then
    Marshal_Request (JsonRpcRequest m)
  else if decide (Type_ m = BaseMessageTypeJSONRPCNotificationType) then
    Marshal_Notification (JsonRpcNotification m)
  else if decide (Type_ m = BaseMessageTypeJSONRPCResponseType) then
    Marshal_Response (JsonRpcResponse m)
  else if decide (Type_ m = BaseMessageTypeJSONRPCErrorType) then
    Marshal_Error (JsonRpcError m)
  else Err "unknown message type, couldn't marshal".

(** [json.Marshal] of a pointer to a [BaseJsonRpcMessage]: a nil pointer encodes as
    [null] without calling the method. *)
Definition Marshal_Message (p : option BaseJsonRpcMessage) : result json :=
  match p with
  | None => Ok JNull
  | Some m => MarshalJSON m
  end.

(** *** [json.Unmarshal] into the structs

    [types.go] declares no [UnmarshalJSON] method, so the decoder's rules
    for plain structs apply: a body that is not a JSON text is a syntax
    error, [null] leaves the struct untouched, an object is read key by key
    in order (unknown keys are skipped, a later key overwrites an earlier
    one, a value of the wrong JSON kind is a type error), and any other
    value is a type error. *)
Definition Unmarshal_struct {A} (zero : A) (set : A -> string -> json -> option A)
    (body : Body) : result A :=
  match body with
  | None => Err "invalid character looking for beginning of value"
  | Some JNull => Ok zero
  | Some (JObject fields) =>
      match foldl (fun acc kv => a ← acc; set a kv.1 kv.2) (Some zero) fields with
      | Some a => Ok a
      | None => Err "json: cannot unmarshal value into Go struct field"
      end
  | Some _ => Err "json: cannot unmarshal value into Go value of struct type"
  end.

Definition set_ErrorInner (e : BaseJSONRPCErrorInner.t) (k : string) (v : json)
  : option BaseJSONRPCErrorInner.t :=
  let '(BaseJSONRPCErrorInner.mk code data message) := e in
  if names k "code" then c ← into_int v code; Some (BaseJSONRPCErrorInner.mk c data message)
  else if names k "data" then Some (BaseJSONRPCErrorInner.mk code v message)
  else if names k "message" then
    m ← into_string v message; Some (BaseJSONRPCErrorInner.mk code data m)
  else Some e.

(** Into a field of struct type [BaseJSONRPCErrorInner]. *)
Definition into_ErrorInner (v : json) (old : BaseJSONRPCErrorInner.t)
  : option BaseJSONRPCErrorInner.t :=
  match v with
  | JNull => Some old
  | JObject fields => foldl (fun acc kv => a ← acc; set_ErrorInner a kv.1 kv.2) (Some old) fields
  | _ => None
  end.

Definition set_Error (e : BaseJSONRPCError.t) (k : string) (v : json)
  : option BaseJSONRPCError.t :=
  let '(BaseJSONRPCError.mk inner id jsonrpc) := e in
  if names k "error" then i ← into_ErrorInner v inner; Some (BaseJSONRPCError.mk i id jsonrpc)
  else if names k "id" then z ← into_int v id; Some (BaseJSONRPCError.mk inner z jsonrpc)
  else if names k "jsonrpc" then
    s ← into_string v jsonrpc; Some (BaseJSONRPCError.mk inner id s)
  else Some e.

Definition set_Request (r : BaseJSONRPCRequest.t) (k : string) (v : json)
  : option BaseJSONRPCRequest.t :=
  let '(BaseJSONRPCRequest.mk id jsonrpc method params) := r in
  if names k "id" then z ← into_int v id; Some (BaseJSONRPCRequest.mk z jsonrpc method params)
  else if names k "jsonrpc" then
    s ← into_string v jsonrpc; Some (BaseJSONRPCRequest.mk id s method params)
  else if names k "method" then
    s ← into_string v method; Some (BaseJSONRPCRequest.mk id jsonrpc s params)
  else if names k "params" then Some (BaseJSONRPCRequest.mk id jsonrpc method (RawJSON v))
  else Some r.

Definition set_Notification (n : BaseJSONRPCNotification.t) (k : string) (v : json)
  : option BaseJSONRPCNotification.t :=
  let '(BaseJSONRPCNotification.mk jsonrpc method params) := n in
  if names k "jsonrpc" then
    s ← into_string v jsonrpc; Some (BaseJSONRPCNotification.mk s method params)
  else if names k "method" then
    s ← into_string v method; Some (BaseJSONRPCNotification.mk jsonrpc s params)
  else if names k "params" then Some (BaseJSONRPCNotification.mk jsonrpc method (RawJSON v))
  else Some n.

Definition set_Response (r : BaseJSONRPCResponse.t) (k : string) (v : json)
  : option BaseJSONRPCResponse.t :=
  let '(BaseJSONRPCResponse.mk id jsonrpc res) := r in
  if names k "id" then z ← into_int v id; Some (BaseJSONRPCResponse.mk z jsonrpc res)
  else if names k "jsonrpc" then
    s ← into_string v jsonrpc; Some (BaseJSONRPCResponse.mk id s res)
  else if names k "result" then Some (BaseJSONRPCResponse.mk id jsonrpc (RawJSON v))
  else Some r.

Definition Unmarshal_Request := Unmarshal_struct BaseJSONRPCRequest.zero set_Request.
Definition Unmarshal_Notification :=
  Unmarshal_struct BaseJSONRPCNotification.zero set_Notification.
Definition Unmarshal_Response := Unmarshal_struct BaseJSONRPCResponse.zero set_Response.
Definition Unmarshal_Error := Unmarshal_struct BaseJSONRPCError.zero set_Error.

Module JSONRPCCommon.
(** Modelled from the spec: the declaration of [JSONRPCCommon] is not among
    the sources.  The envelope is "capable of holding any of the four message
    shapes": the union of the fields [id], [jsonrpc], [method], [params],
    [result] and [error] of the four messages, with [Id] and [Error] behind
    pointers (the bridge tests them against nil and dereferences them) and
    [Method], [Params], [Result] of the types of the struct fields they are
    copied into. *)
Record t := mk {
  Id : option RequestId;
  Jsonrpc : string;
  Method : string;
  Params : RawMessage;
  Result : RawMessage;
  Error : option BaseJSONRPCErrorInner.t
}.
Definition zero : t := mk None "" "" RawNil RawNil None.
End JSONRPCCommon.

(** Into a field of type pointer to [BaseJSONRPCErrorInner]: [null] sets
    nil, an object is decoded into the struct pointed to (allocated when the
    pointer is nil). *)
Definition into_ErrorInner_ptr (v : json) (old : option BaseJSONRPCErrorInner.t)
  : option (option BaseJSONRPCErrorInner.t) :=
  match v with
  | JNull => Some None
  | _ => i ← into_ErrorInner v (default BaseJSONRPCErrorInner.zero old); Some (Some i)
  end.

(** Modelled from the spec: the field tags of [JSONRPCCommon] are not among
    the sources; they are taken to be the member names of the wire format,
    [id], [jsonrpc], [method], [params], [result] and [error]. *)
Definition set_Common (c : JSONRPCCommon.t) (k : string) (v : json)
  : option JSONRPCCommon.t :=
  let '(JSONRPCCommon.mk id jsonrpc method params res err) := c in
  if names k "id" then
    z ← into_int_ptr v; Some (JSONRPCCommon.mk z jsonrpc method params res err)
  else if names k "jsonrpc" then
    s ← into_string v jsonrpc; Some (JSONRPCCommon.mk id s method params res err)
  else if names k "method" then
    s ← into_string v method; Some (JSONRPCCommon.mk id jsonrpc s params res err)
  else if names k "params" then Some (JSONRPCCommon.mk id jsonrpc method (RawJSON v) res err)
  else if names k "result" then Some (JSONRPCCommon.mk id jsonrpc method params (RawJSON v) err)
  else if names k "error" then
    e ← into_ErrorInner_ptr v err; Some (JSONRPCCommon.mk id jsonrpc method params res e)
  else Some c.

Definition Unmarshal_Common := Unmarshal_struct JSONRPCCommon.zero set_Common.

End transport.
Export transport.

(** ** The bridge state shared by the HTTP transports

    [BaseTransport] (common.go), the unexported [baseTransport] and
    [HTTPTransport] (http.go) hold the same fields up to capitalisation: three
    callbacks, each nil or installed, and the response map from slot to
    channel.  A callback is arbitrary user code; what the transport does with
    it is to call it, which is recorded as an [Event].

    Channels are unbuffered: [make(chan ...)] yields a channel distinct from all
    earlier ones ([made] counts them), a receive [<-ch] suspends its caller
    until somebody sends on [ch], and a send [ch <- m] suspends the sender
    until somebody receives.  [receivers] holds the calls suspended in a
    receive, with the local variables they need when they resume. *)
Module Bridge.

Definition Chan := nat.

Inductive Event : Type :=
  | OnMessage (m : BaseJsonRpcMessage)
  | OnError (e : string)
  | OnClose.

(** The locals of a handling call that is suspended in [<-t.ResponseMap[key]]. *)
Record Receiver := mkReceiver { key : Z; prevId : option RequestId }.

Record t := mk {
  MessageHandler : bool;
  ErrorHandler : bool;
  CloseHandler : bool;
  ResponseMap : gmap Z Chan;
  made : Chan;
  receivers : gmap Chan Receiver
}.

(** [NewBaseTransport], [newBaseTransport], [NewHTTPTransport] *)
Definition new : t := mk false false false ∅ 0%nat ∅.

Definition SetMessageHandler (s : t) : t :=
  mk true (ErrorHandler s) (CloseHandler s) (ResponseMap s) (made s) (receivers s).
Definition SetErrorHandler (s : t) : t :=
  mk (MessageHandler s) true (CloseHandler s) (ResponseMap s) (made s) (receivers s).
Definition SetCloseHandler (s : t) : t :=
  mk (MessageHandler s) (ErrorHandler s) true (ResponseMap s) (made s) (receivers s).

(** [if handler != nil { handler(ctx, m) }] *)
Definition call_handler (s : t) (m : BaseJsonRpcMessage) : list Event :=
  if MessageHandler s then [OnMessage m] else [].

Definition call_error_handler (s : t) (e : string) : list Event :=
  if ErrorHandler s then [OnError e] else [].

(** The probe
<<
    var key int64 = 0
    for key < 1000000 {
        if _, ok := t.ResponseMap[key]; !ok { break }
        key = key + 1
    }
>>
    [fuel] is the number of iterations left before [key] reaches the bound. *)
Definition slot_limit : Z := 1000000.

Fixpoint probe (m : gmap Z Chan) (fuel : nat) (key : Z) : Z :=
  match fuel with
  | O => key
  | S fuel' =>
      match m !! key with
      | None => key
      | Some _ => probe m fuel' (key + 1)
      end
  end.

Definition probe_below (limit : Z) (m : gmap Z Chan) : Z := probe m (Z.to_nat limit) 0.

Definition free_key (m : gmap Z Chan) : Z := probe_below slot_limit m.

(** The first lines of every handling call: probe, then
    [t.ResponseMap[key] = make(chan ...)].  Returns the state, the slot and
    the channel. *)
Definition allocate (s : t) : t * Z * Chan :=
  let key := free_key (ResponseMap s) in
  let ch := made s in
  (mk (MessageHandler s) (ErrorHandler s) (CloseHandler s)
      (<[key := ch]> (ResponseMap s)) (S ch) (receivers s), key, ch).

(** The call suspends in [<-ch]. *)
Definition suspend (s : t) (ch : Chan) (r : Receiver) : t :=
  mk (MessageHandler s) (ErrorHandler s) (CloseHandler s)
     (ResponseMap s) (made s) (<[ch := r]> (receivers s)).

(** The suspended call on [ch] has received and runs
    [delete(t.ResponseMap, key)]. *)
Definition release (s : t) (ch : Chan) (k : Z) : t :=
  mk (MessageHandler s) (ErrorHandler s) (CloseHandler s)
     (delete k (ResponseMap s)) (made s) (delete ch (receivers s)).

(** [message.JsonRpcResponse.Id = id] *)
Definition set_response_id (m : BaseJsonRpcMessage) (r : BaseJSONRPCResponse.t)
    (id : RequestId) : BaseJsonRpcMessage :=
  mkMessage (Type_ m) (JsonRpcRequest m) (JsonRpcNotification m)
    (Some (BaseJSONRPCResponse.mk id (BaseJSONRPCResponse.Jsonrpc r)
                                     (BaseJSONRPCResponse.Result r)))
    (JsonRpcError m).

(** What a transport's [Send] comes to. *)
Inductive SendStep : Type :=
  | NilDereference                 (* [message.JsonRpcResponse.Id] on a nil pointer *)
  | SendFails (e : string)         (* [return fmt.Errorf(...)] *)
  | SendOn (ch : Chan).            (* [responseChannel <- message], then [return nil] *)

(** [Send], the same text in [BaseTransport], [baseTransport],
    [HTTPTransport], [ChiTransport] and [GinTransport]:
<<
    key := message.JsonRpcResponse.Id
    responseChannel := t.ResponseMap[int64(key)]
    if responseChannel == nil {
        return fmt.Errorf("no response channel found for key: %d", key)
    }
    responseChannel <- message
    return nil
>> *)
Definition Send (s : t) (message : BaseJsonRpcMessage) : t * SendStep :=
  match JsonRpcResponse message with
  | None => (s, NilDereference)
  | Some response =>
      match ResponseMap s !! BaseJSONRPCResponse.Id response with
      | None => (s, SendFails "no response channel found for key")
      | Some responseChannel => (s, SendOn responseChannel)
      end
  end.

(** [Close] of [BaseTransport], [baseTransport] and [ChiTransport]:
<<
    if t.CloseHandler != nil { t.CloseHandler() }
    return nil
>> *)
Definition Close (s : t) : t * list Event :=
  (s, if CloseHandler s then [OnClose] else []).

End Bridge.

(** What a handling call comes to once it runs to its end. *)
Inductive Return : Type :=
  | Panics
  | Returns (response : option BaseJsonRpcMessage) (err : option string).

(** ** transport/http/common.go: [BaseTransport] *)
Module BaseTransport.
Import Bridge.

(** The four [json.Unmarshal] calls of [HandleMessage], one per struct. *)
Record Decoders := mkDecoders {
  as_request : Body -> result BaseJSONRPCRequest.t;
  as_notification : Body -> result BaseJSONRPCNotification.t;
  as_response : Body -> result BaseJSONRPCResponse.t;
  as_error : Body -> result BaseJSONRPCError.t
}.

(** The decoders of the structs as [types.go] declares them. *)
Definition plain : Decoders :=
  mkDecoders Unmarshal_Request Unmarshal_Notification Unmarshal_Response Unmarshal_Error.

Definition with_id (r : BaseJSONRPCRequest.t) (id : RequestId) : BaseJSONRPCRequest.t :=
  BaseJSONRPCRequest.mk id (BaseJSONRPCRequest.Jsonrpc r) (BaseJSONRPCRequest.Method r)
                        (BaseJSONRPCRequest.Params r).

(** Lines 83-144: the chain of attempts.  Yields [prevId] and the calls made
    to the message handler. *)
Definition dispatch (d : Decoders) (s : t) (key : Z) (body : Body)
  : option RequestId * list Event :=
  match as_request d body with
  | Ok request =>
      (Some (BaseJSONRPCRequest.Id request),
       call_handler s (NewBaseMessageRequest (with_id request key)))
  | Err _ =>
      match as_notification d body with
      | Ok notification =>
          (None, call_handler s (NewBaseMessageNotification notification))
      | Err _ =>
          match as_response d body with
          | Ok response => (None, call_handler s (NewBaseMessageResponse response))
          | Err _ =>
              match as_error d body with
              | Ok errorResponse => (None, call_handler s (NewBaseMessageError errorResponse))
              | Err _ => (None, [])
              end
          end
      end
  end.

(** [HandleMessage] up to its receive [<-t.ResponseMap[key]] (lines 69-147):
    every path through the function reaches that receive.  Returns the
    channel the call is suspended on. *)
Definition HandleMessage (d : Decoders) (s : t) (body : Body) : t * list Event * Chan :=
  let '(s1, key, ch) := allocate s in
  let '(prevId, events) := dispatch d s1 key body in
  (suspend s1 ch (mkReceiver key prevId), events, ch).

(** [HandleMessage] from the receive on (lines 147-153), once
    [responseToUse] has arrived on [ch]. *)
Definition HandleMessage_resume (s : t) (ch : Chan) (responseToUse : BaseJsonRpcMessage)
  : option (t * Return) :=
  r ← receivers s !! ch;
  let s' := release s ch (key r) in
  match prevId r with
  | Some id =>
      match JsonRpcResponse responseToUse with
      | None => Some (s', Panics)
      | Some response =>
          Some (s', Returns (Some (set_response_id responseToUse response id)) None)
      end
  | None => Some (s', Returns (Some responseToUse) None)
  end.

Definition Send := Bridge.Send.
Definition Close := Bridge.Close.

(** [ReadBody]: [io.ReadAll] either yields the body or fails. *)
Definition ReadBody (s : t) (read : result Body) : list Event * result Body :=
  match read with
  | Ok body => ([], Ok body)
  | Err e =>
      (call_error_handler s ("failed to read request body: " ++ e),
       Err ("failed to read request body: " ++ e))
  end.

End BaseTransport.

(** ** The unexported [baseTransport]: decoding through [JSONRPCCommon] *)
Module baseTransport.
Import Bridge.

(** The [switch] of [handleMessage], case by case in its order. *)
Inductive Shape : Type :=
  | IsRequest (originalId : RequestId)
  | IsNotification
  | IsResponse (id : RequestId)
  | IsError (id : RequestId) (e : BaseJSONRPCErrorInner.t)
  | Unrecognized.

Definition nonempty (m : string) : bool := if decide (m = "") then false else true.
Definition non_nil (m : RawMessage) : bool :=
  match m with RawNil => false | _ => true end.

Definition shape (tmp : JSONRPCCommon.t) : Shape :=
  match nonempty (JSONRPCCommon.Method tmp), JSONRPCCommon.Id tmp with
  | true, Some originalId => IsRequest originalId
  | true, None => IsNotification
  | false, Some id =>
      if non_nil (JSONRPCCommon.Result tmp) then IsResponse id
      else
        match JSONRPCCommon.Error tmp with
        | Some e => IsError id e
        | None => Unrecognized
        end
  | false, None => Unrecognized
  end.

Inductive Outcome : Type :=
  | Returned (response : option BaseJsonRpcMessage) (err : option string)
  | Receiving (ch : Chan)                           (* in [<-t.responseMap[key]] *)
  | Sending (ch : Chan) (m : BaseJsonRpcMessage).   (* in [responseChan <- responseMsg] *)

(** [handleMessage] up to its first return, receive or send. *)
Definition handleMessage (s : t) (body : Body) : t * list Event * Outcome :=
  let '(s1, key, ch) := allocate s in
  match Unmarshal_Common body with
  | Err e => (s1, [], Returned None (Some ("failed to parse JSON: " ++ e)))
  | Ok tmp =>
      match shape tmp with
      | IsRequest originalId =>
          let request :=
            BaseJSONRPCRequest.mk key (JSONRPCCommon.Jsonrpc tmp)
              (JSONRPCCommon.Method tmp) (JSONRPCCommon.Params tmp) in
          (suspend s1 ch (mkReceiver key (Some originalId)),
           call_handler s1 (NewBaseMessageRequest request),
           Receiving ch)
      | IsNotification =>
          let notification :=
            BaseJSONRPCNotification.mk (JSONRPCCommon.Jsonrpc tmp)
              (JSONRPCCommon.Method tmp) (JSONRPCCommon.Params tmp) in
          (s1, call_handler s1 (NewBaseMessageNotification notification),
           Returned None None)
      | IsResponse id =>
          let response :=
            BaseJSONRPCResponse.mk id (JSONRPCCommon.Jsonrpc tmp)
              (JSONRPCCommon.Result tmp) in
          match ResponseMap s1 !! id with
          | Some responseChan => (s1, [], Sending responseChan (NewBaseMessageResponse response))
          | None => (s1, [], Returned None (Some "no matching request for response with id"))
          end
      | IsError id e =>
          let errorResponse := BaseJSONRPCError.mk e id (JSONRPCCommon.Jsonrpc tmp) in
          match ResponseMap s1 !! id with
          | Some responseChan => (s1, [], Sending responseChan (NewBaseMessageError errorResponse))
          | None =>
              (s1, [], Returned None (Some "no matching request for error response with id"))
          end
      | Unrecognized =>
          (s1, [], Returned None (Some "failed to unmarshal JSON-RPC message, unrecognized type"))
      end
  end.

(** [handleMessage] from its receive on (lines 178-188). *)
Definition handleMessage_resume (s : t) (ch : Chan) (responseToUse : BaseJsonRpcMessage)
  : option (t * Return) :=
  r ← receivers s !! ch;
  let s' := release s ch (key r) in
  match prevId r, JsonRpcResponse responseToUse with
  | Some id, Some response =>
      Some (s', Returns (Some (set_response_id responseToUse response id)) None)
  | _, _ => Some (s', Returns (Some responseToUse) None)
  end.

(** [handleMessage] after its send went through: [prevId] is nil, line 192. *)
Definition handleMessage_sent : Return := Returns None None.

Definition Send := Bridge.Send.
Definition Close := Bridge.Close.

Definition readBody (s : t) (read : result Body) : list Event * result Body :=
  match read with
  | Ok body => ([], Ok body)
  | Err e =>
      (call_error_handler s ("failed to read request body: " ++ e),
       Err ("failed to read request body: " ++ e))
  end.

End baseTransport.

(** ** The HTTP endpoints *)
Module Http.

Definition MethodPost : string := "POST".
Definition StatusOK : Z := 200.
Definition StatusBadRequest : Z := 400.
Definition StatusMethodNotAllowed : Z := 405.
Definition StatusInternalServerError : Z := 500.

(** What a handler reads of an HTTP call: its method, and what [io.ReadAll]
    of its body gives. *)
Record Request := mkRequest { Method : string; ReadAll : result Body }.

Inductive Payload : Type :=
  | Empty                   (* [w.WriteHeader] alone *)
  | Text (s : string)       (* [http.Error], [c.String] *)
  | Data (j : json).        (* the bytes [json.Marshal] gave, as written *)

Record Reply := mkReply { Status : Z; Content : Payload }.

(** A call to a handler either has replied or is suspended on a channel. *)
Inductive Progress : Type :=
  | Replied (r : Reply)
  | Waiting (ch : Bridge.Chan)
  | Delivering (ch : Bridge.Chan) (m : BaseJsonRpcMessage)
  | Crashed.

End Http.

(** ** [GinTransport.Handler] over [baseTransport] *)
Module GinTransport.
Import Bridge Http.

(** The handler from the return of [handleMessage] on (lines 52-66). *)
Definition Handler_finish (s : t) (ret : Return) : list Event * Progress :=
  match ret with
  | Panics => ([], Crashed)
  | Returns _ (Some err) => ([], Replied (mkReply StatusInternalServerError (Text err)))
  | Returns response None =>
      match Marshal_Message response with
      | Err e =>
          (call_error_handler s ("failed to marshal response: " ++ e),
           Replied (mkReply StatusInternalServerError (Text "Failed to marshal response")))
      | Ok jsonData => ([], Replied (mkReply StatusOK (Data jsonData)))
      end
  end.

(** The handler up to its reply or to the point where [handleMessage]
    suspends. *)
Definition Handler (s : t) (r : Request) : t * list Event * Progress :=
  if decide (Method r = MethodPost) then
    match baseTransport.readBody s (ReadAll r) with
    | (ev, Err e) => (s, ev, Replied (mkReply StatusBadRequest (Text e)))
    | (ev, Ok body) =>
        match baseTransport.handleMessage s body with
        | (s', ev', baseTransport.Returned response err) =>
            let '(ev'', p) := Handler_finish s' (Returns response err) in
            (s', (ev ++ ev' ++ ev'')%list, p)
        | (s', ev', baseTransport.Receiving ch) => (s', (ev ++ ev')%list, Waiting ch)
        | (s', ev', baseTransport.Sending ch m) => (s', (ev ++ ev')%list, Delivering ch m)
        end
    end
  else (s, [], Replied (mkReply StatusMethodNotAllowed (Text "Only POST method is supported"))).

(** The suspended handler on [ch] receives [m] and runs to its reply. *)
Definition Handler_resume (s : t) (ch : Chan) (m : BaseJsonRpcMessage)
  : option (t * list Event * Progress) :=
  '(s', ret) ← baseTransport.handleMessage_resume s ch m;
  let '(ev, p) := Handler_finish s' ret in
  Some (s', ev, p).

End GinTransport.

(** ** transport/http/http.go: [HTTPTransport.handleRequest]

    Lines 114-195 of [handleRequest] are the body of
    [BaseTransport.HandleMessage] written in place (the handler is called
    without a context), so the model goes through it. *)
Module HTTPTransport.
Import Bridge Http.

Definition handleRequest (d : BaseTransport.Decoders) (s : t) (r : Request)
  : t * list Event * Progress :=
  if decide (Method r = MethodPost) then
    match ReadAll r with
    | Err e =>
        (s, call_error_handler s ("failed to read request body: " ++ e),
         Replied (mkReply StatusBadRequest (Text "Failed to read request body")))
    | Ok body =>
        let '(s', ev, ch) := BaseTransport.HandleMessage d s body in
        (s', ev, Waiting ch)
    end
  else (s, [], Replied (mkReply StatusMethodNotAllowed (Text "Only POST method is supported"))).

(** Lines 191-205. [w.Write] without a prior [WriteHeader] replies 200. *)
Definition handleRequest_resume (s : t) (ch : Chan) (m : BaseJsonRpcMessage)
  : option (t * list Event * Progress) :=
  '(s', ret) ← BaseTransport.HandleMessage_resume s ch m;
  match ret with
  | Panics => Some (s', [], Crashed)
  | Returns responseToUse _ =>
      match Marshal_Message responseToUse with
      | Err e =>
          Some (s', call_error_handler s' ("failed to marshal response: " ++ e),
                Replied (mkReply StatusInternalServerError (Text "Failed to marshal response")))
      | Ok jsonData => Some (s', [], Replied (mkReply StatusOK (Data jsonData)))
      end
  end.

(** The second copy of [handleRequest] in [http.go], of the transport whose
    [Send] is "not supported in stateless HTTP transport": there is no
    response map, and every call replies at once.  This is the copy
    [http_test.go] exercises. *)
Definition Send_receive_only (message : BaseJsonRpcMessage) : option string :=
  Some "send not supported in stateless HTTP transport - this transport only supports receiving messages".

Definition handleRequest_receive_only (d : BaseTransport.Decoders) (s : t) (r : Request)
  : list Event * Reply :=
  if decide (Method r = MethodPost) then
    match ReadAll r with
    | Err e =>
        (call_error_handler s ("failed to read request body: " ++ e),
         mkReply StatusBadRequest (Text "Failed to read request body"))
    | Ok body =>
        (* from "Try as a notification" on *)
        let others :=
          match BaseTransport.as_notification d body with
          | Ok notification =>
              (call_handler s (NewBaseMessageNotification notification), mkReply StatusOK Empty)
          | Err _ =>
              match BaseTransport.as_response d body with
              | Ok response =>
                  (call_handler s (NewBaseMessageResponse response), mkReply StatusOK Empty)
              | Err _ =>
                  match BaseTransport.as_error d body with
                  | Ok errorResponse =>
                      (call_handler s (NewBaseMessageError errorResponse),
                       mkReply StatusOK Empty)
                  | Err _ =>
                      (call_error_handler s "invalid JSON-RPC message",
                       mkReply StatusBadRequest (Text "Invalid JSON-RPC message"))
                  end
              end
          end in
        (* [err == nil && request.Id != 0] *)
        match BaseTransport.as_request d body with
        | Ok request =>
            if decide (BaseJSONRPCRequest.Id request = 0) then others
            else (call_handler s (NewBaseMessageRequest request), mkReply StatusOK Empty)
        | Err _ => others
        end
    end
  else ([], mkReply StatusMethodNotAllowed (Text "Only POST method is supported")).

End HTTPTransport.

(** ** contrib/chi: [ChiTransport] over [BaseTransport] *)
Module ChiTransport.
Import Bridge Http.

Definition Send := Bridge.Send.
Definition Close := Bridge.Close.

Definition Handler (d : BaseTransport.Decoders) (s : t) (r : Request)
  : t * list Event * Progress :=
  if decide (Method r = MethodPost) then
    match BaseTransport.ReadBody s (ReadAll r) with
    | (ev, Err e) => (s, ev, Replied (mkReply StatusBadRequest (Text e)))
    | (ev, Ok body) =>
        let '(s', ev', ch) := BaseTransport.HandleMessage d s body in
        (s', (ev ++ ev')%list, Waiting ch)
    end
  else (s, [], Replied (mkReply StatusMethodNotAllowed (Text "Only POST method is supported"))).

(** [HandleMessage] has returned [(response, nil)]; lines 65-76. *)
Definition Handler_resume (s : t) (ch : Chan) (m : BaseJsonRpcMessage)
  : option (t * list Event * Progress) :=
  '(s', ret) ← BaseTransport.HandleMessage_resume s ch m;
  match ret with
  | Panics => Some (s', [], Crashed)
  | Returns _ (Some err) =>
      Some (s', [], Replied (mkReply StatusInternalServerError (Text err)))
  | Returns response None =>
      match Marshal_Message response with
      | Err e =>
          Some (s', call_error_handler s' ("failed to marshal response: " ++ e),
                Replied (mkReply StatusInternalServerError (Text "Failed to marshal response")))
      | Ok jsonData => Some (s', [], Replied (mkReply StatusOK (Data jsonData)))
      end
  end.

End ChiTransport.

(** ** [HTTPClientTransport.Send]: what is done with the reply

    Lines 96-152 of [Send], reached when the POST was answered with status
    200: [body] is [None] for a reply of length 0.  Returns the calls made to
    the message handler and the error returned. *)
Module HTTPClientTransport.
Import Bridge.

Definition call (messageHandler : bool) (m : BaseJsonRpcMessage) : list Event :=
  if messageHandler then [OnMessage m] else [].

Definition Send_reply (d : BaseTransport.Decoders) (messageHandler : bool)
    (body : option Body) : list Event * option string :=
  match body with
  | None => ([], None)
  | Some body =>
      match BaseTransport.as_response d body with
      | Ok response => (call messageHandler (NewBaseMessageResponse response), None)
      | Err _ =>
          match BaseTransport.as_error d body with
          | Ok errorResponse => (call messageHandler (NewBaseMessageError errorResponse), None)
          | Err _ =>
              match BaseTransport.as_notification d body with
              | Ok notification =>
                  (call messageHandler (NewBaseMessageNotification notification), None)
              | Err _ =>
                  match BaseTransport.as_request d body with
                  | Ok request => (call messageHandler (NewBaseMessageRequest request), None)
                  | Err _ => ([], Some "received invalid response")
                  end
              end
          end
      end
  end.

End HTTPClientTransport.

(** ** Registry and pagination *)
Module Registry.

(** Modelled from the spec: the registry of tools is not among the sources
    (of the server only an early [server.go] without listing is).  A
    descriptor is "name, description, generated argument schema"; the registry
    maps names to descriptors. *)
Record ToolDescriptor := mkTool { Name : string; Description : string; InputSchema : json }.

(** Go compares strings byte by byte. *)
Definition lex_le : relation string := fun a b => String.leb a b = true.
Definition lex_lt : relation string := fun a b => String.ltb a b = true.

#[global] Instance lex_le_dec (a b : string) : Decision (lex_le a b).
Proof. unfold lex_le. apply _. Defined.

(** Modelled from the spec: [RegisterTool] is not among the sources;
    "registering an existing name replaces it". *)
Definition RegisterTool (tool : ToolDescriptor) (tools : gmap string ToolDescriptor)
  : gmap string ToolDescriptor :=
  <[Name tool := tool]> tools.

(** Modelled from the spec: "sort all registered keys lexicographically by
    name/URI". *)
Definition sorted_keys (tools : gmap string ToolDescriptor) : list string :=
  merge_sort lex_le (map_to_list tools).*1.

(** Modelled from the spec: "locate the first key strictly greater than the
    supplied cursor"; the keys from that one on. *)
Fixpoint after (cursor : string) (keys : list string) : list string :=
  match keys with
  | [] => []
  | k :: rest => if String.ltb cursor k then keys else after cursor rest
  end.

Record Page := mkPage { Tools : list ToolDescriptor; NextCursor : option string }.

(** Modelled from the spec: "return up to limit consecutive keys'
    descriptors, and set nextCursor to the last returned key if further keys
    remain, else omit it". *)
Definition page_of (tools : gmap string ToolDescriptor) (limit : nat) (from : list string)
  : Page :=
  let returned := take limit from in
  mkPage (omap (fun k => tools !! k) returned)
         (match drop limit from with
          | [] => None
          | _ :: _ => last returned
          end).

(** Modelled from the spec: [handleListTools] is not among the sources (its
    test [TestHandleListToolsPagination] is).  The operation of section 4.6,
    from "the first key overall if no cursor"; a cursor is valid "only if it
    equals some currently-registered item's key", and "an unrecognized cursor
    fails with InvalidCursorError". *)
Definition handleListTools (tools : gmap string ToolDescriptor) (limit : nat)
    (cursor : option string) : result Page :=
  match cursor with
  | None => Ok (page_of tools limit (sorted_keys tools))
  | Some c =>
      match tools !! c with
      | None => Err "InvalidCursorError"
      | Some _ => Ok (page_of tools limit (after c (sorted_keys tools)))
      end
  end.

End Registry.
(** ** Sample bodies and states *)
Module Samples.

(** [{"jsonrpc":"2.0","id":<id>,"method":"tools/list"}] *)
Definition request_body (id : Z) : Body :=
  Some (JObject [("jsonrpc", JString "2.0"); ("id", JInt id);
                 ("method", JString "tools/list")]).

(** [{"jsonrpc":"2.0","method":"notifications/initialized"}] *)
Definition notification_body : Body :=
  Some (JObject [("jsonrpc", JString "2.0");
                 ("method", JString "notifications/initialized")]).

(** [{"jsonrpc":"2.0","id":<id>,"result":{}}] *)
Definition response_body (id : Z) : Body :=
  Some (JObject [("jsonrpc", JString "2.0"); ("id", JInt id); ("result", JObject [])]).

(** [{"jsonrpc":"2.0","id":<id>,"error":{"code":-32601,"message":"Method not found"}}] *)
Definition error_body (id : Z) : Body :=
  Some (JObject [("jsonrpc", JString "2.0"); ("id", JInt id);
                 ("error", JObject [("code", JInt (-32601));
                                    ("message", JString "Method not found")])]).

(** [{"jsonrpc":"2.0","id":1,"result":{},"error":{"code":-32603,"message":"Internal error"}}] *)
Definition result_and_error_body : Body :=
  Some (JObject [("jsonrpc", JString "2.0"); ("id", JInt 1); ("result", JObject []);
                 ("error", JObject [("code", JInt (-32603));
                                    ("message", JString "Internal error")])]).

(** Bytes that are not a JSON text, such as [invalid json]. *)
Definition invalid_json : Body := None.

(** A fresh transport with a message handler installed. *)
Definition serving : Bridge.t := Bridge.SetMessageHandler Bridge.new.

Definition a_request (id : Z) : BaseJSONRPCRequest.t :=
  BaseJSONRPCRequest.mk id "2.0" "tools/list" RawNil.

Definition a_response (id : Z) : BaseJSONRPCResponse.t :=
  BaseJSONRPCResponse.mk id "2.0" (RawJSON (JObject [])).

Definition an_error (id : Z) : BaseJSONRPCError.t :=
  BaseJSONRPCError.mk (BaseJSONRPCErrorInner.mk (-32601) JNull "Method not found") id "2.0".

Definition a_notification : BaseJSONRPCNotification.t :=
  BaseJSONRPCNotification.mk "2.0" "notifications/initialized" RawNil.

(** A transport on which slots 0 to [n - 1] are taken: slot [k] holds channel
    [k], on which the call of client id [k] is suspended. *)
Definition taken (n : nat) : Bridge.t :=
  Bridge.mk true false false
    (map_seqZ 0 (seq 0 n)) n
    (map_seq 0 ((fun k : nat => Bridge.mkReceiver (Z.of_nat k) (Some (Z.of_nat k))) <$> seq 0 n)).

(** Every slot the probe looks at is taken: 0 to 999999. *)
Definition exhausted : Bridge.t := taken (Z.to_nat Bridge.slot_limit).

(** As [exhausted], and slot 1000000 is taken too. *)
Definition overfull : Bridge.t := taken (S (Z.to_nat Bridge.slot_limit)).


Definition post (body : Body) : Http.Request := Http.mkRequest Http.MethodPost (Ok body).

End Samples.

(** ** Invariant of the bridge state: channels in use were made earlier *)
Definition fresh_channels (s : Bridge.t) : Prop :=
  (forall k c, Bridge.ResponseMap s !! k = Some c -> (c < Bridge.made s)%nat) /\
  (forall c r, Bridge.receivers s !! c = Some r -> (c < Bridge.made s)%nat).

(** ** What bridging a request comes to

    [bridges_request s s1 events ch resume request]: from state [s], a call
    handling [request] has reached its receive in state [s1] on channel [ch],
    having made the handler calls [events]. *)
Definition bridges_request (s s1 : Bridge.t) (events : list Bridge.Event) (ch : Bridge.Chan)
    (resume : Bridge.t -> Bridge.Chan -> BaseJsonRpcMessage -> option (Bridge.t * Return))
    (request : BaseJSONRPCRequest.t) : Prop :=
  let key := Bridge.free_key (Bridge.ResponseMap s) in
  (* the slot is the least one not in the map *)
  Bridge.ResponseMap s !! key = None /\
  (forall j, 0 <= j < key -> is_Some (Bridge.ResponseMap s !! j)) /\
  Bridge.ResponseMap s1 = <[key := ch]> (Bridge.ResponseMap s) /\
  (* the handler sees the request under the slot *)
  events = Bridge.call_handler s (NewBaseMessageRequest (BaseTransport.with_id request key)) /\
  (* the call is suspended, with the client's id kept aside *)
  Bridge.receivers s1 !! ch
    = Some (Bridge.mkReceiver key (Some (BaseJSONRPCRequest.Id request))) /\
  (* exactly the sends of a response under the slot go to its channel *)
  (forall message response,
     JsonRpcResponse message = Some response ->
     (BaseJSONRPCResponse.Id response = key ->
        Bridge.Send s1 message = (s1, Bridge.SendOn ch)) /\
     (BaseJSONRPCResponse.Id response <> key ->
        Bridge.Send s1 message <> (s1, Bridge.SendOn ch))) /\
  (* on receiving, the slot is deleted and the client's id put back *)
  (forall message response,
     JsonRpcResponse message = Some response ->
     exists s2,
       resume s1 ch message
         = Some (s2, Returns (Some (Bridge.set_response_id message response
                                      (BaseJSONRPCRequest.Id request))) None) /\
       Bridge.ResponseMap s2 = Bridge.ResponseMap s /\
       Bridge.receivers s2 !! ch = None).

(** ** The discrimination rule in the specification's words

    "presence of method and absent id => Notification; presence of method and
    present id => Request; presence of error and id => Error; presence of
    result and id => Response", in this priority order, on the fields of the
    envelope. *)
Inductive Kind : Type := KNotification | KRequest | KError | KResponse | KNone.

Definition has_method (tmp : JSONRPCCommon.t) : bool :=
  baseTransport.nonempty (JSONRPCCommon.Method tmp).
Definition has_id (tmp : JSONRPCCommon.t) : bool :=
  match JSONRPCCommon.Id tmp with Some _ => true | None => false end.
Definition has_result (tmp : JSONRPCCommon.t) : bool :=
  baseTransport.non_nil (JSONRPCCommon.Result tmp).
Definition has_error (tmp : JSONRPCCommon.t) : bool :=
  match JSONRPCCommon.Error tmp with Some _ => true | None => false end.

Definition stated_kind (tmp : JSONRPCCommon.t) : Kind :=
  if has_method tmp && negb (has_id tmp) then KNotification
  else if has_method tmp && has_id tmp then KRequest
  else if has_error tmp && has_id tmp then KError
  else if has_result tmp && has_id tmp then KResponse
  else KNone.

Definition kind_of (sh : baseTransport.Shape) : Kind :=
  match sh with
  | baseTransport.IsRequest _ => KRequest
  | baseTransport.IsNotification => KNotification
  | baseTransport.IsResponse _ => KResponse
  | baseTransport.IsError _ _ => KError
  | baseTransport.Unrecognized => KNone
  end.

(** The order of the [switch]: result before error. *)
Definition switch_kind (tmp : JSONRPCCommon.t) : Kind :=
  if has_method tmp && has_id tmp then KRequest
  else if has_method tmp && negb (has_id tmp) then KNotification
  else if has_result tmp && has_id tmp then KResponse
  else if has_error tmp && has_id tmp then KError
  else KNone.

(** ** Well-formed messages

    An id or an error code is an [int64]; a request and a notification name a
    method; a raw message is nil or holds a JSON text; a response has a
    result. *)
Definition raw_ok (m : RawMessage) : Prop :=
  match m with RawBytes _ => False | _ => True end.









(** ** The tools of [TestHandleListToolsPagination], registered in its order *)
Definition test_tools : gmap string Registry.ToolDescriptor :=
  foldl (fun tools name =>
           Registry.RegisterTool
             (Registry.mkTool name ("Test tool " ++ name)%string (JObject [])) tools)
        ∅ ["b-tool"; "a-tool"; "c-tool"; "e-tool"; "d-tool"].

Definition names_of (p : result Registry.Page) : result (list string * option string) :=
  (fun pg => (Registry.Name <$> Registry.Tools pg, Registry.NextCursor pg)) <$> p.

(** ** What a page of the listing is

    [is_page tools limit cursor]: the result of listing [tools] from [cursor]
    with pages of [limit] keys. *)
Definition is_page (tools : gmap string Registry.ToolDescriptor) (limit : nat)
    (cursor : option string) : Prop :=
  let keys := Registry.sorted_keys tools in
  (* the registered keys, each once, in lexicographic order *)
  (StronglySorted Registry.lex_le keys /\ NoDup keys /\
   forall k, k ∈ keys <-> is_Some (tools !! k)) /\
  (* a cursor that is no registered key *)
  (forall c, cursor = Some c -> tools !! c = None ->
     Registry.handleListTools tools limit cursor = Err "InvalidCursorError") /\
  (* no cursor, or a registered one *)
  ((cursor = None \/ exists c, cursor = Some c /\ is_Some (tools !! c)) ->
   exists before returned rest descriptors next,
     keys = (before ++ returned ++ rest)%list /\
     match cursor with
     | None => before = []
     | Some c => (forall k, k ∈ before -> Registry.lex_le k c) /\
                 (forall k, k ∈ (returned ++ rest)%list -> Registry.lex_lt c k)
     end /\
     length returned = (limit `min` length (returned ++ rest)%list)%nat /\
     Forall2 (fun k d => tools !! k = Some d) returned descriptors /\
     Registry.handleListTools tools limit cursor = Ok (Registry.mkPage descriptors next) /\
     (rest = [] -> next = None) /\
     (rest <> [] -> exists k, last returned = Some k /\ next = Some k)).

(** ** Trying decoders one after the other

    [first_success] is the message of the first attempt, in the order of the
    list, that succeeded. *)
Definition attempt {A} (r : result A) (build : A -> BaseJsonRpcMessage)
  : option BaseJsonRpcMessage :=
  match r with Ok a => Some (build a) | Err _ => None end.

Fixpoint first_success (attempts : list (option BaseJsonRpcMessage))
  : option BaseJsonRpcMessage :=
  match attempts with
  | [] => None
  | Some m :: _ => Some m
  | None :: rest => first_success rest
  end.

(** ** Runs of a [BaseTransport]

    One step of a transport's life: a call to [HandleMessage] arrives and
    runs up to its receive; a [Send] of a response meets the call waiting
    under its id, which resumes and returns; [Close] is called; a handler is
    installed. *)
Inductive step (d : BaseTransport.Decoders) : Bridge.t -> Bridge.t -> Prop :=
  | step_handle s body :
      step d s (BaseTransport.HandleMessage d s body).1.1
  | step_answer s message ch s' ret :
      (BaseTransport.Send s message).2 = Bridge.SendOn ch ->
      BaseTransport.HandleMessage_resume s ch message = Some (s', ret) ->
      step d s s'
  | step_close s :
      step d s (BaseTransport.Close s).1
  | step_set_message_handler s : step d s (Bridge.SetMessageHandler s)
  | step_set_error_handler s : step d s (Bridge.SetErrorHandler s)
  | step_set_close_handler s : step d s (Bridge.SetCloseHandler s).

(** Every slot of the map belongs to a suspended call. *)
Definition slots_are_held (s : Bridge.t) : Prop :=
  forall k ch, Bridge.ResponseMap s !! k = Some ch ->
               exists p, Bridge.receivers s !! ch = Some (Bridge.mkReceiver k p).

(** * Further definitions *)

(** The state in which a call that has taken its slot waits: the slot holds a
    new channel and the call is suspended on it, with [prev] kept aside. *)
Definition waiting_state (s : Bridge.t) (prev : option RequestId) : Bridge.t :=
  Bridge.suspend (Bridge.allocate s).1.1 (Bridge.made s)
    (Bridge.mkReceiver (Bridge.free_key (Bridge.ResponseMap s)) prev).

(** Slots stay within the range of the probe. *)
Definition slots_in_range (s : Bridge.t) : Prop :=
  forall k ch, Bridge.ResponseMap s !! k = Some ch -> 0 <= k <= Bridge.slot_limit.


(** ** The client side: [HTTPClientTransport]

    The transport holds the URL it posts to, the headers added by
    [WithHeader] and the three callbacks.  Its HTTP client is an interface
    with the one method [Do]; what [Do] and the reading of the reply come to
    for a given POST is a parameter of [Send]. *)
Module HTTPClient.
Import Bridge.

Record t := mk {
  baseURL : string;
  endpoint : string;
  messageHandler : bool;
  errorHandler : bool;
  closeHandler : bool;
  headers : gmap string string
}.

Definition NewHTTPClientTransport (endpoint : string) : t :=
  mk "" endpoint false false false ∅.

Definition WithBaseURL (t0 : t) (baseURL : string) : t :=
  mk baseURL (endpoint t0) (messageHandler t0) (errorHandler t0) (closeHandler t0) (headers t0).

Definition WithHeader (t0 : t) (key value : string) : t :=
  mk (baseURL t0) (endpoint t0) (messageHandler t0) (errorHandler t0) (closeHandler t0)
     (<[key := value]> (headers t0)).

Definition SetMessageHandler (t0 : t) : t :=
  mk (baseURL t0) (endpoint t0) true (errorHandler t0) (closeHandler t0) (headers t0).
Definition SetErrorHandler (t0 : t) : t :=
  mk (baseURL t0) (endpoint t0) (messageHandler t0) true (closeHandler t0) (headers t0).
Definition SetCloseHandler (t0 : t) : t :=
  mk (baseURL t0) (endpoint t0) (messageHandler t0) (errorHandler t0) true (headers t0).

(** The POST that [Send] builds: [http.NewRequest] on the URL and the
    encoded message, [Header.Set] of the content type, then [Header.Set] of
    each entry of [t.headers]. *)
Record Post := mkPost {
  Url : string;
  ContentType : string;
  Headers : gmap string string;
  Payload : json
}.

(** What comes of the POST: [http.NewRequest], [t.client.Do] or
    [io.ReadAll] fails, or there is a status and a body ([None] for a body of
    length 0). *)
Inductive Exchange : Type :=
  | CreateFails (e : string)
  | DoFails (e : string)
  | ReadFails (e : string)
  | Answered (status : Z) (body : option Body).

(** The errors of [Send], each with what its format string is filled with. *)
Inductive SendError : Type :=
  | FailedToMarshalMessage (e : string)
  | FailedToCreateRequest (e : string)
  | FailedToSendRequest (e : string)
  | FailedToReadResponse (e : string)
  | ServerReturnedError (body : option Body) (status : Z)
  | ReceivedInvalidResponse (body : option Body).

Definition Send (d : BaseTransport.Decoders) (t0 : t) (client : Post -> Exchange)
    (message : option BaseJsonRpcMessage) : list Event * option SendError :=
  match Marshal_Message message with
  | Err e => ([], Some (FailedToMarshalMessage e))
  | Ok jsonData =>
      match client (mkPost (baseURL t0 ++ endpoint t0) "application/json" (headers t0)
                      jsonData) with
      | CreateFails e => ([], Some (FailedToCreateRequest e))
      | DoFails e => ([], Some (FailedToSendRequest e))
      | ReadFails e => ([], Some (FailedToReadResponse e))
      | Answered status body =>
          if decide (status = Http.StatusOK) then
            match HTTPClientTransport.Send_reply d (messageHandler t0) body with
            | (events, None) => (events, None)
            | (events, Some _) => (events, Some (ReceivedInvalidResponse body))
            end
          else ([], Some (ServerReturnedError body status))
      end
  end.

(** [Close]: the close handler is called when there is one. *)
Definition Close (t0 : t) : list Event := if closeHandler t0 then [OnClose] else [].

End HTTPClient.

(** ** Bodies on which [baseTransport.handleMessage] does not wait

    The body is not JSON, or it decodes to an envelope that the [switch] takes
    for a notification or for none of the four kinds: the paths of
    [handleMessage] that return without a receive or a send. *)
Definition returns_at_once (body : Body) : bool :=
  match Unmarshal_Common body with
  | Err _ => true
  | Ok tmp =>
      match baseTransport.shape tmp with
      | baseTransport.IsNotification | baseTransport.Unrecognized => true
      | _ => false
      end
  end.

(** The transport after [handleMessage] has been called on each body in
    turn. *)
Definition handle_all (s : Bridge.t) (bodies : list Body) : Bridge.t :=
  foldl (fun s body => (baseTransport.handleMessage s body).1.1) s bodies.
(** * Properties *)

Import Bridge.

(** ** The probe *)

Lemma probe_range (m : gmap Z Chan) (fuel : nat) (k : Z) :
  k <= probe m fuel k <= k + Z.of_nat fuel.
Proof.
  revert k. induction fuel as [|fuel IH]; intros k; simpl; [lia|].
  destruct (m !! k); [|lia]. specialize (IH (k + 1)). lia.
Qed.

Lemma probe_skips_occupied (m : gmap Z Chan) (fuel : nat) (k j : Z) :
  k <= j < probe m fuel k -> is_Some (m !! j).
Proof.
  revert k. induction fuel as [|fuel IH]; intros k; simpl; [lia|].
  destruct (m !! k) as [c|] eqn:Hk; [|lia].
  intros Hj. destruct (decide (j = k)) as [->|Hne]; [by eexists|].
  apply (IH (k + 1)). lia.
Qed.

Lemma probe_stops_free (m : gmap Z Chan) (fuel : nat) (k : Z) :
  probe m fuel k < k + Z.of_nat fuel -> m !! probe m fuel k = None.
Proof.
  revert k. induction fuel as [|fuel IH]; intros k; simpl; [lia|].
  destruct (m !! k) as [c|] eqn:Hk; [|done].
  intros Hlt. apply IH. lia.
Qed.

Lemma probe_all_occupied (m : gmap Z Chan) (fuel : nat) (k : Z) :
  (forall j, k <= j < k + Z.of_nat fuel -> is_Some (m !! j)) ->
  probe m fuel k = k + Z.of_nat fuel.
Proof.
  revert k. induction fuel as [|fuel IH]; intros k Hocc; simpl; [lia|].
  destruct (Hocc k ltac:(lia)) as [c ->].
  rewrite IH; [lia|]. intros j Hj. apply Hocc. lia.
Qed.

Lemma free_key_range (m : gmap Z Chan) : 0 <= free_key m <= slot_limit.
Proof.
  unfold free_key, probe_below.
  pose proof (probe_range m (Z.to_nat slot_limit) 0) as H.
  rewrite Z2Nat.id in H by (unfold slot_limit; lia). lia.
Qed.

Lemma free_key_least (m : gmap Z Chan) (j : Z) :
  0 <= j < free_key m -> is_Some (m !! j).
Proof. apply probe_skips_occupied. Qed.

Lemma free_key_free (m : gmap Z Chan) :
  free_key m < slot_limit -> m !! free_key m = None.
Proof.
  intros H. apply probe_stops_free.
  rewrite Z2Nat.id by (unfold slot_limit; lia). unfold free_key, probe_below in H. lia.
Qed.

Lemma free_key_exhausted (m : gmap Z Chan) :
  (forall j, 0 <= j < slot_limit -> is_Some (m !! j)) -> free_key m = slot_limit.
Proof.
  intros H. unfold free_key, probe_below. rewrite probe_all_occupied.
  - rewrite Z2Nat.id by (unfold slot_limit; lia). lia.
  - intros j Hj. apply H. rewrite Z2Nat.id in Hj by (unfold slot_limit; lia). lia.
Qed.

(** A slot is free somewhere in [0, 1000000] exactly when the probe ends on a
    free one. *)
Lemma free_key_finds (m : gmap Z Chan) (j : Z) :
  0 <= j <= slot_limit -> m !! j = None -> m !! free_key m = None.
Proof.
  intros Hj Hfree.
  destruct (decide (free_key m < slot_limit)) as [Hlt|Hge]; [by apply free_key_free|].
  pose proof (free_key_range m) as Hr.
  assert (free_key m = slot_limit) as Heq by lia.
  destruct (decide (j = slot_limit)) as [->|Hne]; [by rewrite Heq|].
  destruct (free_key_least m j ltac:(lia)) as [c Hc]. congruence.
Qed.

Lemma free_key_empty : free_key ∅ = 0.
Proof. reflexivity. Qed.

(** ** Sanity checks of the decoders on the sample bodies *)

Example plain_request_decodes :
  Unmarshal_Request (Samples.request_body 7) = Ok (Samples.a_request 7).
Proof. reflexivity. Qed.

Example common_request_decodes :
  baseTransport.shape <$> Unmarshal_Common (Samples.request_body 7)
  = Ok (baseTransport.IsRequest 7).
Proof. reflexivity. Qed.

Example invalid_json_fails : is_Ok (Unmarshal_Common Samples.invalid_json) = false.
Proof. reflexivity. Qed.

Example key_folding : names "ID" "id" = true /\ names "Method" "method" = true
                      /\ names "ids" "id" = false.
Proof. repeat split; reflexivity. Qed.

(** ** The state invariant is kept by every operation *)

Lemma fresh_channels_new : fresh_channels new.
Proof. split; intros ? ? H; simpl in H; by rewrite lookup_empty in H. Qed.

Lemma fresh_channels_allocate (s : Bridge.t) :
  fresh_channels s -> fresh_channels (allocate s).1.1.
Proof.
  intros [Hm Hr]. split; simpl.
  - intros k c. rewrite lookup_insert. case_decide.
    + intros [= <-]. lia.
    + intros H'. specialize (Hm _ _ H'). lia.
  - intros c r H'. specialize (Hr _ _ H'). lia.
Qed.

Lemma fresh_channels_suspend (s : Bridge.t) (ch : Chan) (r : Receiver) :
  (ch < made s)%nat -> fresh_channels s -> fresh_channels (suspend s ch r).
Proof.
  intros Hch [Hm Hr]. split; simpl; [done|].
  intros c r'. rewrite lookup_insert. case_decide; [intros _; lia | apply Hr].
Qed.

Lemma fresh_channels_release (s : Bridge.t) (ch : Chan) (k : Z) :
  fresh_channels s -> fresh_channels (release s ch k).
Proof.
  intros [Hm Hr]. split; simpl.
  - intros k' c. rewrite lookup_delete. case_decide; [done | apply Hm].
  - intros c r. rewrite lookup_delete. case_decide; [done | apply Hr].
Qed.

Lemma fresh_channels_HandleMessage d s body :
  fresh_channels s -> fresh_channels (BaseTransport.HandleMessage d s body).1.1.
Proof.
  intros H. unfold BaseTransport.HandleMessage.
  pose proof (fresh_channels_allocate s H) as Ha.
  destruct (allocate s) as [[s1 k] ch] eqn:Hs. simpl in Ha.
  assert (ch < made s1)%nat as Hlt.
  { unfold allocate in Hs. injection Hs as <- _ <-. simpl. lia. }
  destruct (BaseTransport.dispatch d s1 k body) as [p ev]. simpl.
  by apply fresh_channels_suspend.
Qed.

Lemma fresh_channels_handleMessage s body :
  fresh_channels s -> fresh_channels (baseTransport.handleMessage s body).1.1.
Proof.
  intros H. unfold baseTransport.handleMessage.
  pose proof (fresh_channels_allocate s H) as Ha.
  destruct (allocate s) as [[s1 k] ch] eqn:Hs. simpl in Ha.
  assert (ch < made s1)%nat as Hlt.
  { unfold allocate in Hs. injection Hs as <- _ <-. simpl. lia. }
  destruct (Unmarshal_Common body) as [tmp|e]; [|done].
  destruct (baseTransport.shape tmp); simpl; try done.
  - by apply fresh_channels_suspend.
  - by destruct (ResponseMap s1 !! id).
  - by destruct (ResponseMap s1 !! id).
Qed.

(** ** C10: [Send] *)

(** C10. [BaseTransport.Send] reads [message.JsonRpcResponse.Id] first: on
    every message whose [JsonRpcResponse] is nil (every message built by
    [NewBaseMessageRequest], [NewBaseMessageNotification] or
    [NewBaseMessageError]) it dereferences a nil pointer; on a message with a
    response for whose id the map holds no channel it returns an error, and
    the transport is left as it was. *)
Theorem Send_defined_on_responses_only (s : Bridge.t) :
  (forall message, JsonRpcResponse message = None ->
     BaseTransport.Send s message = (s, NilDereference)) /\
  (forall r, BaseTransport.Send s (NewBaseMessageRequest r) = (s, NilDereference)) /\
  (forall n, BaseTransport.Send s (NewBaseMessageNotification n) = (s, NilDereference)) /\
  (forall e, BaseTransport.Send s (NewBaseMessageError e) = (s, NilDereference)) /\
  (forall message response,
     JsonRpcResponse message = Some response ->
     ResponseMap s !! BaseJSONRPCResponse.Id response = None ->
     exists e, BaseTransport.Send s message = (s, SendFails e)).
Proof.
  repeat split; try reflexivity.
  - intros message H. unfold BaseTransport.Send, Send. by rewrite H.
  - intros message response H Hnone. unfold BaseTransport.Send, Send.
    rewrite H, Hnone. by eexists.
Qed.

Lemma Send_defined_on_responses_only_witness :
  (JsonRpcResponse (NewBaseMessageError (Samples.an_error 0)) = None /\
   JsonRpcResponse (NewBaseMessageResponse (Samples.a_response 5))
     = Some (Samples.a_response 5) /\
   ResponseMap Samples.serving !! 5 = None) /\
  BaseTransport.Send Samples.serving (NewBaseMessageError (Samples.an_error 0))
    = (Samples.serving, NilDereference) /\
  exists e, BaseTransport.Send Samples.serving (NewBaseMessageResponse (Samples.a_response 5))
            = (Samples.serving, SendFails e).
Proof.
  destruct (Send_defined_on_responses_only Samples.serving) as (H1 & _ & _ & _ & H5).
  split; [|split].
  - repeat split; reflexivity.
  - apply H1. reflexivity.
  - apply (H5 _ (Samples.a_response 5)); reflexivity.
Defined.

(** ** C6: [Close] *)

(** C6 (as the code has it). [Close] calls the close handler when one is
    installed and returns nil; the response map is left as it is and every
    call suspended on the instance stays suspended. *)
Theorem Close_leaves_calls_suspended (s : Bridge.t) (ch : Chan) (r : Receiver) :
  receivers s !! ch = Some r ->
  (BaseTransport.Close s).2 = (if CloseHandler s then [OnClose] else []) /\
  receivers (BaseTransport.Close s).1 !! ch = Some r /\
  ResponseMap (BaseTransport.Close s).1 = ResponseMap s.
Proof. intros H. by repeat split. Qed.

Lemma Close_leaves_calls_suspended_witness :
  let s1 := (BaseTransport.HandleMessage BaseTransport.plain Samples.serving
               (Samples.request_body 7)).1.1 in
  receivers s1 !! 0%nat = Some (mkReceiver 0 (Some 7)) /\
  (BaseTransport.Close s1).2 = [] /\
  receivers (BaseTransport.Close s1).1 !! 0%nat = Some (mkReceiver 0 (Some 7)) /\
  ResponseMap (BaseTransport.Close s1).1 = ResponseMap s1.
Proof.
  intros s1. split; [reflexivity|].
  apply (Close_leaves_calls_suspended s1 0%nat (mkReceiver 0 (Some 7))).
  reflexivity.
Defined.

(** Against C6 as stated: a request is being handled (its call is suspended on
    channel 0, slot 0); after [Close], with or without a close handler, the
    call is still suspended there and nothing has been sent to it. *)
Lemma Close_does_not_unblock :
  let '(s1, _, ch) := BaseTransport.HandleMessage BaseTransport.plain Samples.serving
                        (Samples.request_body 7) in
  let '(s2, events) := BaseTransport.Close (SetCloseHandler s1) in
  events = [OnClose] /\
  receivers s2 !! ch = Some (mkReceiver 0 (Some 7)) /\
  ResponseMap s2 !! 0 = Some ch.
Proof. vm_compute. by repeat split. Qed.

(** ** C1: a request through the bridge *)

Lemma Send_after_allocate (s : Bridge.t) (ch : Chan) (r : Receiver) message response :
  fresh_channels s ->
  JsonRpcResponse message = Some response ->
  let key := free_key (ResponseMap s) in
  let s1 := suspend (allocate s).1.1 (made s) r in
  (BaseJSONRPCResponse.Id response = key -> Send s1 message = (s1, SendOn (made s))) /\
  (BaseJSONRPCResponse.Id response <> key -> Send s1 message <> (s1, SendOn (made s))).
Proof.
  intros [Hm _] Hresp key s1. unfold Send. rewrite Hresp. simpl. split.
  - intros ->. fold key. by rewrite lookup_insert_eq.
  - intros Hne. fold key. rewrite lookup_insert_ne by done.
    destruct (ResponseMap s !! BaseJSONRPCResponse.Id response) as [c|] eqn:Hc; [|done].
    specialize (Hm _ _ Hc). intros [= ->]. lia.
Qed.

Lemma bridges_request_intro (s : Bridge.t) resume (request : BaseJSONRPCRequest.t) events :
  let key := free_key (ResponseMap s) in
  let s1 := suspend (allocate s).1.1 (made s)
              (mkReceiver key (Some (BaseJSONRPCRequest.Id request))) in
  fresh_channels s ->
  ResponseMap s !! key = None ->
  events = call_handler s (NewBaseMessageRequest (BaseTransport.with_id request key)) ->
  (forall message response,
     JsonRpcResponse message = Some response ->
     resume s1 (made s) message
       = Some (release s1 (made s) key,
               Returns (Some (set_response_id message response
                                (BaseJSONRPCRequest.Id request))) None)) ->
  bridges_request s s1 events (made s) resume request.
Proof.
  intros key s1 Hfresh Hfree Hev Hres. unfold bridges_request. fold key.
  split; [done|]. split; [apply free_key_least|]. split; [done|]. split; [done|].
  split; [by simpl; rewrite lookup_insert_eq|]. split.
  - intros message response Hresp.
    apply (Send_after_allocate s (made s) _ message response Hfresh Hresp).
  - intros message response Hresp. eexists. split; [by apply Hres|].
    simpl. fold key. split; [by rewrite delete_insert_id | by rewrite lookup_delete_eq].
Qed.

Lemma BaseTransport_bridges_request d s body request :
  fresh_channels s ->
  BaseTransport.as_request d body = Ok request ->
  ResponseMap s !! free_key (ResponseMap s) = None ->
  exists s1 events ch,
    BaseTransport.HandleMessage d s body = (s1, events, ch) /\
    bridges_request s s1 events ch BaseTransport.HandleMessage_resume request.
Proof.
  intros Hfresh Hreq Hfree.
  unfold BaseTransport.HandleMessage, BaseTransport.dispatch. rewrite Hreq. simpl.
  eexists _, _, _. split; [reflexivity|].
  apply bridges_request_intro; [done..|].
  intros message response Hresp. unfold BaseTransport.HandleMessage_resume.
  simpl. rewrite lookup_insert_eq. simpl. by rewrite Hresp.
Qed.

Lemma baseTransport_bridges_request s body tmp originalId :
  fresh_channels s ->
  Unmarshal_Common body = Ok tmp ->
  baseTransport.shape tmp = baseTransport.IsRequest originalId ->
  ResponseMap s !! free_key (ResponseMap s) = None ->
  exists s1 events ch,
    baseTransport.handleMessage s body = (s1, events, baseTransport.Receiving ch) /\
    bridges_request s s1 events ch baseTransport.handleMessage_resume
      (BaseJSONRPCRequest.mk originalId (JSONRPCCommon.Jsonrpc tmp)
         (JSONRPCCommon.Method tmp) (JSONRPCCommon.Params tmp)).
Proof.
  intros Hfresh Hdec Hshape Hfree.
  unfold baseTransport.handleMessage. simpl. rewrite Hdec, Hshape.
  eexists _, _, _. split; [reflexivity|].
  apply (bridges_request_intro s baseTransport.handleMessage_resume
           (BaseJSONRPCRequest.mk originalId _ _ _)); [done..|].
  intros message response Hresp. unfold baseTransport.handleMessage_resume.
  simpl. rewrite lookup_insert_eq. simpl. by rewrite Hresp.
Qed.

(** C1 (as the code has it). Whenever some slot of the probe's range is free
    and the body is taken for a Request -- by [BaseTransport.HandleMessage]
    when its first [json.Unmarshal] succeeds, by [baseTransport.handleMessage]
    when the envelope has a non-empty method and an id -- the call registers a
    new channel under the least slot not in the map, hands the message handler
    the request with its id replaced by the slot, and suspends.  A [Send] of a
    message carrying a response goes to that channel exactly when the
    response's id is the slot; the call then deletes the slot, writes the
    client's id into the response and returns that message. *)
Theorem request_is_bridged :
  (forall d s body request,
     fresh_channels s ->
     BaseTransport.as_request d body = Ok request ->
     (exists j, 0 <= j <= 1000000 /\ ResponseMap s !! j = None) ->
     exists s1 events ch,
       BaseTransport.HandleMessage d s body = (s1, events, ch) /\
       bridges_request s s1 events ch BaseTransport.HandleMessage_resume request) /\
  (forall s body tmp originalId,
     fresh_channels s ->
     Unmarshal_Common body = Ok tmp ->
     baseTransport.shape tmp = baseTransport.IsRequest originalId ->
     (exists j, 0 <= j <= 1000000 /\ ResponseMap s !! j = None) ->
     exists s1 events ch,
       baseTransport.handleMessage s body = (s1, events, baseTransport.Receiving ch) /\
       bridges_request s s1 events ch baseTransport.handleMessage_resume
         (BaseJSONRPCRequest.mk originalId (JSONRPCCommon.Jsonrpc tmp)
            (JSONRPCCommon.Method tmp) (JSONRPCCommon.Params tmp))).
Proof.
  split.
  - intros d s body request Hfresh Hreq (j & Hj & Hfree).
    apply BaseTransport_bridges_request; [done..|]. by apply (free_key_finds _ j).
  - intros s body tmp originalId Hfresh Hdec Hshape (j & Hj & Hfree).
    apply baseTransport_bridges_request; [done..|]. by apply (free_key_finds _ j).
Qed.

Lemma request_is_bridged_witness :
  (fresh_channels Samples.serving /\
   BaseTransport.as_request BaseTransport.plain (Samples.request_body 7)
     = Ok (Samples.a_request 7) /\
   ResponseMap Samples.serving !! 0 = None) /\
  (exists s1 events ch,
     BaseTransport.HandleMessage BaseTransport.plain Samples.serving (Samples.request_body 7)
       = (s1, events, ch) /\
     bridges_request Samples.serving s1 events ch BaseTransport.HandleMessage_resume
       (Samples.a_request 7)) /\
  (exists s1 events ch,
     baseTransport.handleMessage Samples.serving (Samples.request_body 7)
       = (s1, events, baseTransport.Receiving ch) /\
     bridges_request Samples.serving s1 events ch baseTransport.handleMessage_resume
       (Samples.a_request 7)).
Proof.
  assert (fresh_channels Samples.serving) as Hfresh.
  { split; intros ? ? H; vm_compute in H; discriminate. }
  split; [|split].
  - split; [exact Hfresh|]. split; reflexivity.
  - apply (proj1 request_is_bridged BaseTransport.plain Samples.serving
             (Samples.request_body 7) (Samples.a_request 7)).
    + exact Hfresh.
    + reflexivity.
    + exists 0. split; [lia | reflexivity].
  - apply (proj2 request_is_bridged Samples.serving (Samples.request_body 7)
             (JSONRPCCommon.mk (Some 7) "2.0" "tools/list" RawNil RawNil None) 7).
    + exact Hfresh.
    + reflexivity.
    + reflexivity.
    + exists 0. split; [lia | reflexivity].
Defined.

(** ** C4: the probe's range is exhausted *)

Lemma taken_lookup (n : nat) (j : Z) :
  0 <= j < Z.of_nat n -> ResponseMap (Samples.taken n) !! j = Some (Z.to_nat j).
Proof.
  intros Hj. simpl. rewrite lookup_map_seqZ_0 by lia.
  apply lookup_seq. lia.
Qed.

Lemma taken_lookup_ge (n : nat) (j : Z) :
  Z.of_nat n <= j -> ResponseMap (Samples.taken n) !! j = None.
Proof.
  intros Hj. simpl. rewrite lookup_map_seqZ_0 by lia.
  apply lookup_seq_ge. lia.
Qed.

Lemma exhausted_is_full (j : Z) :
  0 <= j < slot_limit -> is_Some (ResponseMap Samples.exhausted !! j).
Proof.
  intros Hj. exists (Z.to_nat j). apply taken_lookup.
  rewrite Z2Nat.id by (unfold slot_limit; lia). lia.
Qed.

Lemma overfull_is_full (j : Z) :
  0 <= j <= slot_limit -> ResponseMap Samples.overfull !! j = Some (Z.to_nat j).
Proof.
  intros Hj. apply taken_lookup.
  rewrite Nat2Z.inj_succ, Z2Nat.id by (unfold slot_limit; lia). lia.
Qed.

Lemma allocate_when_exhausted (s : Bridge.t) :
  (forall j, 0 <= j < slot_limit -> is_Some (ResponseMap s !! j)) ->
  allocate s = (mk (MessageHandler s) (ErrorHandler s) (CloseHandler s)
                   (<[slot_limit := made s]> (ResponseMap s)) (S (made s)) (receivers s),
                slot_limit, made s).
Proof. intros H. unfold allocate. by rewrite (free_key_exhausted _ H). Qed.

Lemma HandleMessage_when_exhausted d (s : Bridge.t) body :
  (forall j, 0 <= j < slot_limit -> is_Some (ResponseMap s !! j)) ->
  exists s1 events prev,
    BaseTransport.HandleMessage d s body = (s1, events, made s) /\
    ResponseMap s1 = <[slot_limit := made s]> (ResponseMap s) /\
    receivers s1 !! made s = Some (mkReceiver slot_limit prev).
Proof.
  intros H. unfold BaseTransport.HandleMessage. rewrite (allocate_when_exhausted s H).
  destruct (BaseTransport.dispatch _ _ _ _) as [prev events].
  exists (suspend (mk (MessageHandler s) (ErrorHandler s) (CloseHandler s)
                      (<[slot_limit := made s]> (ResponseMap s)) (S (made s)) (receivers s))
                  (made s) (mkReceiver slot_limit prev)), events, prev.
  split; [done|]. split; [done|]. simpl. by rewrite lookup_insert_eq.
Qed.

(** Against C1 as stated.  First ("... until Send is called with a
    Response/Error whose id equals the slot"): the request of client id 7 is
    suspended under slot 0; a [Send] of the Error message with id 0
    dereferences the nil [JsonRpcResponse] and nothing reaches the suspended
    call.  Second ("a slot distinct from every slot currently in the response
    map"): with slots 0 to 1000000 all in the map, the slot the call takes is
    1000000, which is in the map. *)
Lemma Send_of_an_error_does_not_answer :
  (let '(s1, events, ch) :=
     BaseTransport.HandleMessage BaseTransport.plain Samples.serving (Samples.request_body 7) in
   events = [OnMessage (NewBaseMessageRequest (Samples.a_request 0))] /\
   ResponseMap s1 !! 0 = Some ch /\
   BaseJSONRPCError.Id (Samples.an_error 0) = 0 /\
   BaseTransport.Send s1 (NewBaseMessageError (Samples.an_error 0)) = (s1, NilDereference) /\
   receivers s1 !! ch = Some (mkReceiver 0 (Some 7))) /\
  (exists s1 events ch prev,
     BaseTransport.HandleMessage BaseTransport.plain Samples.overfull (Samples.request_body 7)
       = (s1, events, ch) /\
     receivers s1 !! ch = Some (mkReceiver 1000000 prev) /\
     is_Some (ResponseMap Samples.overfull !! 1000000)).
Proof.
  split; [vm_compute; by repeat split|].
  assert (forall j, 0 <= j < slot_limit -> is_Some (ResponseMap Samples.overfull !! j)) as H.
  { intros j Hj. eexists. apply overfull_is_full. lia. }
  destruct (HandleMessage_when_exhausted BaseTransport.plain Samples.overfull
              (Samples.request_body 7) H) as (s1 & events & prev & Heq & _ & Hrcv).
  exists s1, events, (made Samples.overfull), prev. split; [done|]. split; [done|].
  eexists. apply overfull_is_full. unfold slot_limit. lia.
Qed.

(** C4 (as the code has it). When slots 0 to 999999 are all in the response
    map, handling a further body does not fail: the probe stops at 1000000,
    the call registers its new channel under slot 1000000 and suspends on it
    like any other call; [HTTPTransport.handleRequest] sends no error reply. *)
Theorem exhausted_range_takes_slot_limit d (s : Bridge.t) body :
  (forall j, 0 <= j < slot_limit -> is_Some (ResponseMap s !! j)) ->
  free_key (ResponseMap s) = 1000000 /\
  (exists s1 events prev,
     BaseTransport.HandleMessage d s body = (s1, events, made s) /\
     ResponseMap s1 = <[1000000 := made s]> (ResponseMap s) /\
     receivers s1 !! made s = Some (mkReceiver 1000000 prev)) /\
  (exists s1 events,
     HTTPTransport.handleRequest d s (Samples.post body) = (s1, events, Http.Waiting (made s))).
Proof.
  intros H. split; [by apply free_key_exhausted|]. split.
  - by apply HandleMessage_when_exhausted.
  - destruct (HandleMessage_when_exhausted d s body H) as (s1 & events & prev & Heq & _).
    exists s1, events. unfold HTTPTransport.handleRequest. simpl. by rewrite Heq.
Qed.

Lemma exhausted_range_takes_slot_limit_witness :
  (forall j, 0 <= j < slot_limit -> is_Some (ResponseMap Samples.exhausted !! j)) /\
  free_key (ResponseMap Samples.exhausted) = 1000000 /\
  (exists s1 events prev,
     BaseTransport.HandleMessage BaseTransport.plain Samples.exhausted (Samples.request_body 7)
       = (s1, events, made Samples.exhausted) /\
     ResponseMap s1 = <[1000000 := made Samples.exhausted]> (ResponseMap Samples.exhausted) /\
     receivers s1 !! made Samples.exhausted = Some (mkReceiver 1000000 prev)) /\
  (exists s1 events,
     HTTPTransport.handleRequest BaseTransport.plain Samples.exhausted
       (Samples.post (Samples.request_body 7))
     = (s1, events, Http.Waiting (made Samples.exhausted))).
Proof.
  split; [exact exhausted_is_full|].
  apply (exhausted_range_takes_slot_limit BaseTransport.plain Samples.exhausted
           (Samples.request_body 7)).
  exact exhausted_is_full.
Defined.

(** Against C4 as stated: with slots 0 to 1000000 all taken, a further request
    gets no error.  The call takes slot 1000000 over: the channel of the call
    suspended there is replaced by the new one, so that a [Send] for slot
    1000000 no longer reaches the earlier call, and the handler replies
    nothing until a response arrives. *)
Lemma exhaustion_is_not_an_error :
  exists s1 events,
    HTTPTransport.handleRequest BaseTransport.plain Samples.overfull
      (Samples.post (Samples.request_body 7))
    = (s1, events, Http.Waiting (made Samples.overfull)) /\
    ResponseMap Samples.overfull !! 1000000 = Some (Z.to_nat 1000000) /\
    ResponseMap s1 !! 1000000 = Some (made Samples.overfull) /\
    made Samples.overfull <> Z.to_nat 1000000.
Proof.
  assert (forall j, 0 <= j < slot_limit -> is_Some (ResponseMap Samples.overfull !! j)) as H.
  { intros j Hj. eexists. apply overfull_is_full. lia. }
  destruct (HandleMessage_when_exhausted BaseTransport.plain Samples.overfull
              (Samples.request_body 7) H) as (s1 & events & prev & Heq & Hmap & _).
  exists s1, events. split; [|split; [|split]].
  - unfold HTTPTransport.handleRequest. simpl decide. cbv iota. cbn [Samples.post Http.ReadAll].
    by rewrite Heq.
  - apply overfull_is_full. unfold slot_limit. lia.
  - rewrite Hmap. apply lookup_insert_eq.
  - unfold Samples.overfull, Samples.taken, slot_limit. cbn [made]. lia.
Qed.

(** ** C2: slots on the paths that do not wait *)

Lemma handleMessage_returned_keeps_slot (s s1 : Bridge.t) body events response err :
  baseTransport.handleMessage s body = (s1, events, baseTransport.Returned response err) ->
  ResponseMap s1 = <[free_key (ResponseMap s) := made s]> (ResponseMap s) /\
  receivers s1 = receivers s.
Proof.
  unfold baseTransport.handleMessage. simpl.
  destruct (Unmarshal_Common body) as [tmp|e]; [|by intros [= <- _ _ _]].
  destruct (baseTransport.shape tmp); simpl; try by intros [= <- _ _ _].
  - destruct (_ !! id); [discriminate | by intros [= <- _ _ _]].
  - destruct (_ !! id); [discriminate | by intros [= <- _ _ _]].
Qed.

Lemma handleMessage_returned_grows_map (s s1 : Bridge.t) body events response err :
  ResponseMap s !! free_key (ResponseMap s) = None ->
  baseTransport.handleMessage s body = (s1, events, baseTransport.Returned response err) ->
  size (ResponseMap s1) = S (size (ResponseMap s)).
Proof.
  intros Hfree H. destruct (handleMessage_returned_keeps_slot _ _ _ _ _ _ H) as [-> _].
  by apply map_size_insert_None.
Qed.

(** On the path that waits, the slot is given back: along every run of a
    [BaseTransport] each slot in the response map belongs to a call that is
    still suspended, so that the map is empty whenever no call is. *)
Lemma step_keeps_invariants d (s s' : Bridge.t) :
  step d s s' ->
  fresh_channels s /\ slots_are_held s ->
  fresh_channels s' /\ slots_are_held s'.
Proof.
  intros Hstep [Hfresh Hheld]. destruct Hstep as [s body|s message ch s' ret Hsend Hres| | | | ];
    try done.
  - split; [by apply fresh_channels_HandleMessage|].
    unfold BaseTransport.HandleMessage. simpl.
    destruct (BaseTransport.dispatch _ _ _ _) as [prev ev]. simpl.
    intros k ch. simpl. rewrite lookup_insert. case_decide as Hk.
    + intros [= <-]. subst k. rewrite lookup_insert_eq. by eexists.
    + intros Hin. destruct (Hheld _ _ Hin) as [p Hp]. exists p.
      rewrite lookup_insert_ne; [done|].
      destruct Hfresh as [Hm _]. specialize (Hm _ _ Hin). lia.
  - unfold BaseTransport.HandleMessage_resume in Hres.
    destruct (receivers s !! ch) as [r|] eqn:Hr; [|done]. simpl in Hres.
    assert (s' = release s ch (key r)) as ->.
    { destruct (prevId r); [destruct (JsonRpcResponse message)|]; by injection Hres as <- _. }
    split; [by apply fresh_channels_release|].
    intros k ch'. simpl. rewrite lookup_delete. case_decide as Hk; [done|].
    intros Hin. destruct (Hheld _ _ Hin) as [p Hp]. exists p.
    rewrite lookup_delete_ne; [done|]. intros <-. rewrite Hr in Hp. by injection Hp as ->.
Qed.

Lemma run_keeps_invariants d (s : Bridge.t) :
  rtc (step d) new s -> fresh_channels s /\ slots_are_held s.
Proof.
  revert s. apply (rtc_ind_r (R := step d)
                     (fun s => fresh_channels s /\ slots_are_held s) new).
  - split; [apply fresh_channels_new|].
    intros k ch H. simpl in H. by rewrite lookup_empty in H.
  - intros s s' _ Hstep IH. by apply (step_keeps_invariants d s s').
Qed.

Lemma no_call_no_slot d (s : Bridge.t) :
  rtc (step d) new s -> receivers s = ∅ -> ResponseMap s = ∅.
Proof.
  intros Hrun Hnone. destruct (run_keeps_invariants d s Hrun) as [_ Hheld].
  apply map_empty. intros k. destruct (ResponseMap s !! k) as [ch|] eqn:Hk; [|done].
  destruct (Hheld _ _ Hk) as [p Hp]. rewrite Hnone in Hp. by rewrite lookup_empty in Hp.
Qed.

(** C2 (the code at the failing input). On a fresh transport,
    [baseTransport.handleMessage] of a notification body calls the handler and
    returns [(nil, nil)]; no call is suspended, and slot 0, registered at the
    top of the function, is still in the response map. *)
Theorem notification_leaves_its_slot :
  exists s1,
    baseTransport.handleMessage Samples.serving Samples.notification_body
      = (s1, [OnMessage (NewBaseMessageNotification Samples.a_notification)],
         baseTransport.Returned None None) /\
    ResponseMap s1 = {[ 0 := 0%nat ]} /\
    receivers s1 = ∅ /\
    size (ResponseMap s1) = 1%nat.
Proof. eexists. split; [reflexivity|]. by repeat split. Qed.

(** The same on the error paths: a body that is not JSON, or of no known
    shape, makes [handleMessage] return an error with the slot left behind. *)
Lemma parse_failure_leaves_its_slot :
  exists s1 err,
    baseTransport.handleMessage Samples.serving Samples.invalid_json
      = (s1, [], baseTransport.Returned None (Some err)) /\
    ResponseMap s1 = {[ 0 := 0%nat ]} /\ receivers s1 = ∅.
Proof. eexists _, _. split; [reflexivity|]. by split. Qed.

(** ** C5: bodies that are not requests *)





(** ** C3: telling the four kinds apart *)

Lemma shape_follows_switch (tmp : JSONRPCCommon.t) :
  kind_of (baseTransport.shape tmp) = switch_kind tmp.
Proof.
  unfold baseTransport.shape, switch_kind, has_method, has_id, has_result, has_error.
  destruct (baseTransport.nonempty _), (JSONRPCCommon.Id tmp),
    (baseTransport.non_nil _), (JSONRPCCommon.Error tmp); reflexivity.
Qed.

Lemma handleMessage_rejects (s : Bridge.t) body :
  (is_Ok (Unmarshal_Common body) = false \/
   exists tmp, Unmarshal_Common body = Ok tmp /\ switch_kind tmp = KNone) ->
  exists s1 err, baseTransport.handleMessage s body
                 = (s1, [], baseTransport.Returned None (Some err)).
Proof.
  unfold baseTransport.handleMessage. simpl.
  intros [Hbad | (tmp & Hdec & Hkind)].
  - destruct (Unmarshal_Common body); [done | by eexists _, _].
  - rewrite Hdec. rewrite <- shape_follows_switch in Hkind.
    destruct (baseTransport.shape tmp); try done. by eexists _, _.
Qed.

(** C3 (as the code has it). [baseTransport.handleMessage] decodes the body
    into the envelope and tells the kinds apart in the order of its [switch]:
    a non-empty method with an id is a Request, a non-empty method without id
    a Notification, otherwise a result with an id is a Response, otherwise an
    error with an id is an Error; a body that is not JSON or fits none of the
    four makes it return an error without calling the handler.
    [BaseTransport.HandleMessage] takes the body for the first of Request,
    Notification, Response, Error whose [json.Unmarshal] succeeds, and calls
    no handler when none does; [HTTPClientTransport.Send] takes a reply for
    the first of Response, Error, Notification, Request, and returns an error
    when none does. *)
Theorem discrimination_order :
  (forall tmp, kind_of (baseTransport.shape tmp) = switch_kind tmp) /\
  (forall (s : Bridge.t) body,
     (is_Ok (Unmarshal_Common body) = false \/
      exists tmp, Unmarshal_Common body = Ok tmp /\ switch_kind tmp = KNone) ->
     exists s1 err, baseTransport.handleMessage s body
                    = (s1, [], baseTransport.Returned None (Some err))) /\
  (forall d (s : Bridge.t) key body,
     (BaseTransport.dispatch d s key body).2
     = match first_success
               [attempt (BaseTransport.as_request d body)
                  (fun r => NewBaseMessageRequest (BaseTransport.with_id r key));
                attempt (BaseTransport.as_notification d body) NewBaseMessageNotification;
                attempt (BaseTransport.as_response d body) NewBaseMessageResponse;
                attempt (BaseTransport.as_error d body) NewBaseMessageError] with
       | Some m => call_handler s m
       | None => []
       end) /\
  (forall d handler body,
     HTTPClientTransport.Send_reply d handler (Some body)
     = match first_success
               [attempt (BaseTransport.as_response d body) NewBaseMessageResponse;
                attempt (BaseTransport.as_error d body) NewBaseMessageError;
                attempt (BaseTransport.as_notification d body) NewBaseMessageNotification;
                attempt (BaseTransport.as_request d body) NewBaseMessageRequest] with
       | Some m => (HTTPClientTransport.call handler m, None)
       | None => ([], Some "received invalid response")
       end).
Proof.
  split; [apply shape_follows_switch|]. split; [apply handleMessage_rejects|]. split.
  - intros d s key body. unfold BaseTransport.dispatch. simpl.
    destruct (BaseTransport.as_request d body); [done|].
    destruct (BaseTransport.as_notification d body); [done|].
    destruct (BaseTransport.as_response d body); [done|].
    by destruct (BaseTransport.as_error d body).
  - intros d handler body. unfold HTTPClientTransport.Send_reply. simpl.
    destruct (BaseTransport.as_response d body); [done|].
    destruct (BaseTransport.as_error d body); [done|].
    destruct (BaseTransport.as_notification d body); [done|].
    by destruct (BaseTransport.as_request d body).
Qed.

Lemma discrimination_order_witness :
  is_Ok (Unmarshal_Common Samples.invalid_json) = false /\
  (exists s1 err, baseTransport.handleMessage Samples.serving Samples.invalid_json
                  = (s1, [], baseTransport.Returned None (Some err))) /\
  (BaseTransport.dispatch BaseTransport.plain Samples.serving 0 (Samples.request_body 7)).2
  = [OnMessage (NewBaseMessageRequest (Samples.a_request 0))] /\
  HTTPClientTransport.Send_reply BaseTransport.plain true (Some (Samples.response_body 3))
  = ([OnMessage (NewBaseMessageResponse (Samples.a_response 3))], None).
Proof.
  destruct discrimination_order as (_ & Hbad & Hcommon & Hclient).
  split; [reflexivity|]. split; [|split].
  - apply Hbad. left. reflexivity.
  - rewrite Hcommon. reflexivity.
  - rewrite Hclient. reflexivity.
Defined.

(** Against C3 as stated (error tested before result): the body
    [{"jsonrpc":"2.0","id":1,"result":{},"error":{...}}] has an error and an
    id, so that the stated order makes it an Error; the [switch] reaches the
    result case first and builds a Response. *)
Lemma result_and_error_is_a_response :
  exists tmp,
    Unmarshal_Common Samples.result_and_error_body = Ok tmp /\
    stated_kind tmp = KError /\
    baseTransport.shape tmp = baseTransport.IsResponse 1.
Proof. eexists. split; [reflexivity|]. by split. Qed.

(** ** C7: the statuses of the endpoint *)

Lemma Gin_not_post (s : Bridge.t) (r : Http.Request) :
  Http.Method r <> Http.MethodPost ->
  GinTransport.Handler s r
  = (s, [], Http.Replied (Http.mkReply 405 (Http.Text "Only POST method is supported"))).
Proof. intros H. unfold GinTransport.Handler. by rewrite decide_False. Qed.

Lemma Gin_unreadable (s : Bridge.t) (e : string) :
  GinTransport.Handler s (Http.mkRequest Http.MethodPost (Err e))
  = (s, call_error_handler s ("failed to read request body: " ++ e)%string,
     Http.Replied (Http.mkReply 400 (Http.Text ("failed to read request body: " ++ e)%string))).
Proof. reflexivity. Qed.

Lemma Gin_undecodable (s : Bridge.t) body :
  (is_Ok (Unmarshal_Common body) = false \/
   exists tmp, Unmarshal_Common body = Ok tmp /\ switch_kind tmp = KNone) ->
  exists s1 err,
    GinTransport.Handler s (Samples.post body)
    = (s1, [], Http.Replied (Http.mkReply 500 (Http.Text err))).
Proof.
  intros H. destruct (handleMessage_rejects s body H) as (s1 & err & Heq).
  exists s1, err. unfold GinTransport.Handler. simpl. by rewrite Heq.
Qed.

Lemma Gin_request (s : Bridge.t) body tmp id :
  Unmarshal_Common body = Ok tmp ->
  baseTransport.shape tmp = baseTransport.IsRequest id ->
  exists s1 events ch,
    GinTransport.Handler s (Samples.post body) = (s1, events, Http.Waiting ch) /\
    forall message response jsonData,
      JsonRpcResponse message = Some response ->
      MarshalJSON (set_response_id message response id) = Ok jsonData ->
      exists s2,
        GinTransport.Handler_resume s1 ch message
        = Some (s2, [], Http.Replied (Http.mkReply 200 (Http.Data jsonData))).
Proof.
  intros Hdec Hshape. unfold GinTransport.Handler, baseTransport.handleMessage. simpl.
  rewrite Hdec, Hshape. eexists _, _, _. split; [reflexivity|].
  intros message response jsonData Hresp Hm.
  unfold GinTransport.Handler_resume, baseTransport.handleMessage_resume. simpl.
  rewrite lookup_insert_eq. simpl. rewrite Hresp. simpl. rewrite Hm. by eexists.
Qed.

Lemma HTTPTransport_not_post d (s : Bridge.t) (r : Http.Request) :
  Http.Method r <> Http.MethodPost ->
  HTTPTransport.handleRequest d s r
  = (s, [], Http.Replied (Http.mkReply 405 (Http.Text "Only POST method is supported"))).
Proof. intros H. unfold HTTPTransport.handleRequest. by rewrite decide_False. Qed.

Lemma HTTPTransport_unreadable d (s : Bridge.t) (e : string) :
  HTTPTransport.handleRequest d s (Http.mkRequest Http.MethodPost (Err e))
  = (s, call_error_handler s ("failed to read request body: " ++ e)%string,
     Http.Replied (Http.mkReply 400 (Http.Text "Failed to read request body"))).
Proof. reflexivity. Qed.

Lemma HTTPTransport_request d (s : Bridge.t) body request :
  BaseTransport.as_request d body = Ok request ->
  exists s1 events ch,
    HTTPTransport.handleRequest d s (Samples.post body) = (s1, events, Http.Waiting ch) /\
    forall message response jsonData,
      JsonRpcResponse message = Some response ->
      MarshalJSON (set_response_id message response (BaseJSONRPCRequest.Id request))
        = Ok jsonData ->
      exists s2,
        HTTPTransport.handleRequest_resume s1 ch message
        = Some (s2, [], Http.Replied (Http.mkReply 200 (Http.Data jsonData))).
Proof.
  intros Hreq.
  unfold HTTPTransport.handleRequest, BaseTransport.HandleMessage, BaseTransport.dispatch.
  simpl. rewrite Hreq. eexists _, _, _. split; [reflexivity|].
  intros message response jsonData Hresp Hm.
  unfold HTTPTransport.handleRequest_resume, BaseTransport.HandleMessage_resume. simpl.
  rewrite lookup_insert_eq. simpl. rewrite Hresp. simpl. rewrite Hm. by eexists.
Qed.

(** C7 (as the code has it). Both [GinTransport.Handler] and
    [HTTPTransport.handleRequest] answer a method other than POST with 405 and
    a body that cannot be read with 400.  A body holding a Request makes the
    handler wait; when the response arrives, its encoding, with the client's
    id restored, is the body of a reply of status 200.  A body that is not
    JSON, or that has none of the four shapes, is answered by
    [GinTransport.Handler] with status 500 and the error's text. *)
Theorem endpoint_statuses :
  (forall (s : Bridge.t) r, Http.Method r <> Http.MethodPost ->
     GinTransport.Handler s r
     = (s, [], Http.Replied (Http.mkReply 405 (Http.Text "Only POST method is supported")))) /\
  (forall d (s : Bridge.t) r, Http.Method r <> Http.MethodPost ->
     HTTPTransport.handleRequest d s r
     = (s, [], Http.Replied (Http.mkReply 405 (Http.Text "Only POST method is supported")))) /\
  (forall (s : Bridge.t) e, exists events text,
     GinTransport.Handler s (Http.mkRequest Http.MethodPost (Err e))
     = (s, events, Http.Replied (Http.mkReply 400 (Http.Text text)))) /\
  (forall d (s : Bridge.t) e, exists events text,
     HTTPTransport.handleRequest d s (Http.mkRequest Http.MethodPost (Err e))
     = (s, events, Http.Replied (Http.mkReply 400 (Http.Text text)))) /\
  (forall (s : Bridge.t) body,
     (is_Ok (Unmarshal_Common body) = false \/
      exists tmp, Unmarshal_Common body = Ok tmp /\ switch_kind tmp = KNone) ->
     exists s1 err,
       GinTransport.Handler s (Samples.post body)
       = (s1, [], Http.Replied (Http.mkReply 500 (Http.Text err)))) /\
  (forall (s : Bridge.t) body tmp id,
     Unmarshal_Common body = Ok tmp ->
     baseTransport.shape tmp = baseTransport.IsRequest id ->
     exists s1 events ch,
       GinTransport.Handler s (Samples.post body) = (s1, events, Http.Waiting ch) /\
       forall message response jsonData,
         JsonRpcResponse message = Some response ->
         MarshalJSON (set_response_id message response id) = Ok jsonData ->
         exists s2,
           GinTransport.Handler_resume s1 ch message
           = Some (s2, [], Http.Replied (Http.mkReply 200 (Http.Data jsonData)))) /\
  (forall d (s : Bridge.t) body request,
     BaseTransport.as_request d body = Ok request ->
     exists s1 events ch,
       HTTPTransport.handleRequest d s (Samples.post body) = (s1, events, Http.Waiting ch) /\
       forall message response jsonData,
         JsonRpcResponse message = Some response ->
         MarshalJSON (set_response_id message response (BaseJSONRPCRequest.Id request))
           = Ok jsonData ->
         exists s2,
           HTTPTransport.handleRequest_resume s1 ch message
           = Some (s2, [], Http.Replied (Http.mkReply 200 (Http.Data jsonData)))).
Proof.
  split; [apply Gin_not_post|]. split; [apply HTTPTransport_not_post|].
  split; [intros s e; eexists _, _; apply Gin_unreadable|].
  split; [intros d s e; eexists _, _; apply HTTPTransport_unreadable|].
  split; [apply Gin_undecodable|].
  split; [apply Gin_request | apply HTTPTransport_request].
Qed.

Lemma endpoint_statuses_witness :
  ("GET" <> Http.MethodPost /\
   is_Ok (Unmarshal_Common Samples.invalid_json) = false /\
   baseTransport.shape <$> Unmarshal_Common (Samples.request_body 7)
     = Ok (baseTransport.IsRequest 7) /\
   MarshalJSON (set_response_id (NewBaseMessageResponse (Samples.a_response 0))
                  (Samples.a_response 0) 7)
     = Ok (JObject [("id", JInt 7); ("jsonrpc", JString "2.0"); ("result", JObject [])])) /\
  GinTransport.Handler Samples.serving (Http.mkRequest "GET" (Ok None))
  = (Samples.serving, [],
     Http.Replied (Http.mkReply 405 (Http.Text "Only POST method is supported"))) /\
  (exists s1 err,
     GinTransport.Handler Samples.serving (Samples.post Samples.invalid_json)
     = (s1, [], Http.Replied (Http.mkReply 500 (Http.Text err)))) /\
  (exists s1 events ch,
     GinTransport.Handler Samples.serving (Samples.post (Samples.request_body 7))
     = (s1, events, Http.Waiting ch) /\
     exists s2,
       GinTransport.Handler_resume s1 ch (NewBaseMessageResponse (Samples.a_response 0))
       = Some (s2, [],
               Http.Replied (Http.mkReply 200
                 (Http.Data (JObject [("id", JInt 7); ("jsonrpc", JString "2.0");
                                      ("result", JObject [])]))))).
Proof.
  destruct endpoint_statuses as (H405 & _ & _ & _ & H500 & Hreq & _).
  split; [|split; [|split]].
  - split; [discriminate|]. repeat split; reflexivity.
  - apply H405. discriminate.
  - apply H500. left. reflexivity.
  - destruct (Hreq Samples.serving (Samples.request_body 7)
                (JSONRPCCommon.mk (Some 7) "2.0" "tools/list" RawNil RawNil None) 7
                eq_refl eq_refl) as (s1 & events & ch & Heq & Hres).
    exists s1, events, ch. split; [exact Heq|].
    apply (Hres _ (Samples.a_response 0)); reflexivity.
Defined.

(** Against C7 as stated ("a malformed body yields status 400 ... a body
    holding a notification yields an empty 200 reply"): a POST whose body is
    not JSON is answered by [GinTransport.Handler] with status 500, and a
    notification with status 200 and the four bytes [null], the encoding of
    the nil message [handleMessage] returned. *)
Lemma malformed_body_is_not_a_400 :
  (exists s1 err,
     GinTransport.Handler Samples.serving (Samples.post Samples.invalid_json)
     = (s1, [], Http.Replied (Http.mkReply 500 (Http.Text err)))) /\
  (exists s1 events,
     GinTransport.Handler Samples.serving (Samples.post Samples.notification_body)
     = (s1, events, Http.Replied (Http.mkReply 200 (Http.Data JNull)))).
Proof. split; eexists _, _; reflexivity. Qed.

(** The copy of [handleRequest] that [http_test.go] exercises answers a body
    that is not JSON with 400 and a notification with an empty 200, as the
    tests expect, and a request with an empty 200 as well: no response comes
    back on this transport. *)
Lemma receive_only_statuses :
  (HTTPTransport.handleRequest_receive_only BaseTransport.plain Samples.serving
     (Samples.post Samples.invalid_json)).2
  = Http.mkReply 400 (Http.Text "Invalid JSON-RPC message") /\
  HTTPTransport.handleRequest_receive_only BaseTransport.plain Samples.serving
    (Samples.post Samples.notification_body)
  = ([OnMessage (NewBaseMessageNotification Samples.a_notification)],
     Http.mkReply 200 Http.Empty) /\
  HTTPTransport.handleRequest_receive_only BaseTransport.plain Samples.serving
    (Samples.post (Samples.request_body 7))
  = ([OnMessage (NewBaseMessageRequest (Samples.a_request 7))],
     Http.mkReply 200 Http.Empty) /\
  (HTTPTransport.handleRequest_receive_only BaseTransport.plain Samples.serving
     (Http.mkRequest "GET" (Ok None))).2
  = Http.mkReply 405 (Http.Text "Only POST method is supported").
Proof. repeat split; reflexivity. Qed.

(** The handlers over [BaseTransport.HandleMessage] send no reply to a body
    that no decoder accepts: the call takes a slot, calls no handler and waits
    for a response to the slot. *)
Lemma undecodable_body_waits d (s : Bridge.t) body :
  is_Ok (BaseTransport.as_request d body) = false ->
  is_Ok (BaseTransport.as_notification d body) = false ->
  is_Ok (BaseTransport.as_response d body) = false ->
  is_Ok (BaseTransport.as_error d body) = false ->
  exists s1,
    HTTPTransport.handleRequest d s (Samples.post body) = (s1, [], Http.Waiting (made s)) /\
    ChiTransport.Handler d s (Samples.post body) = (s1, [], Http.Waiting (made s)) /\
    receivers s1 !! made s = Some (mkReceiver (free_key (ResponseMap s)) None).
Proof.
  intros H1 H2 H3 H4.
  unfold HTTPTransport.handleRequest, ChiTransport.Handler, BaseTransport.HandleMessage,
    BaseTransport.dispatch. simpl.
  destruct (BaseTransport.as_request d body); [done|].
  destruct (BaseTransport.as_notification d body); [done|].
  destruct (BaseTransport.as_response d body); [done|].
  destruct (BaseTransport.as_error d body); [done|].
  eexists. split; [reflexivity|]. split; [reflexivity|]. simpl. apply lookup_insert_eq.
Qed.

(** ** C9: encoding, then decoding *)






Lemma handleMessage_of_request (s : Bridge.t) body tmp id :
  Unmarshal_Common body = Ok tmp ->
  baseTransport.shape tmp = baseTransport.IsRequest id ->
  baseTransport.handleMessage s body
  = (suspend (allocate s).1.1 (made s) (mkReceiver (free_key (ResponseMap s)) (Some id)),
     call_handler s (NewBaseMessageRequest
       (BaseJSONRPCRequest.mk (free_key (ResponseMap s)) (JSONRPCCommon.Jsonrpc tmp)
          (JSONRPCCommon.Method tmp) (JSONRPCCommon.Params tmp))),
     baseTransport.Receiving (made s)).
Proof. intros Hdec Hshape. unfold baseTransport.handleMessage. simpl. by rewrite Hdec, Hshape. Qed.


Lemma handleMessage_of_response (s : Bridge.t) body tmp id ch :
  Unmarshal_Common body = Ok tmp ->
  baseTransport.shape tmp = baseTransport.IsResponse id ->
  ResponseMap s !! id = Some ch ->
  id <> free_key (ResponseMap s) ->
  baseTransport.handleMessage s body
  = ((allocate s).1.1, [],
     baseTransport.Sending ch (NewBaseMessageResponse
       (BaseJSONRPCResponse.mk id (JSONRPCCommon.Jsonrpc tmp) (JSONRPCCommon.Result tmp)))).
Proof.
  intros Hdec Hshape Hch Hne. unfold baseTransport.handleMessage. simpl.
  rewrite Hdec, Hshape. rewrite lookup_insert_ne by done. by rewrite Hch.
Qed.





(** ** C8: listing by pages *)

Example pagination_test :
  names_of (Registry.handleListTools test_tools 2 None)
    = Ok (["a-tool"; "b-tool"], Some "b-tool") /\
  names_of (Registry.handleListTools test_tools 2 (Some "b-tool"))
    = Ok (["c-tool"; "d-tool"], Some "d-tool") /\
  names_of (Registry.handleListTools test_tools 2 (Some "d-tool"))
    = Ok (["e-tool"], None) /\
  names_of (Registry.handleListTools test_tools 2 (Some "invalid-cursor"))
    = Err "InvalidCursorError".
Proof. vm_compute. by repeat split. Qed.

Import Registry.

Lemma string_compare_trans (a b c : string) :
  String.compare a b <> Gt -> String.compare b c <> Gt ->
  String.compare a c <> Gt /\
  (String.compare a b = Lt \/ String.compare b c = Lt -> String.compare a c = Lt).
Proof.
  revert b c. induction a as [|x a IH]; intros [|y b] [|z c]; simpl;
    try (intuition congruence).
  unfold Ascii.compare.
  destruct (N.compare_spec (N_of_ascii x) (N_of_ascii y)) as [Hxy|Hxy|Hxy];
    destruct (N.compare_spec (N_of_ascii y) (N_of_ascii z)) as [Hyz|Hyz|Hyz];
    destruct (N.compare_spec (N_of_ascii x) (N_of_ascii z)) as [Hxz|Hxz|Hxz];
    try lia; try (intuition congruence).
  apply IH.
Qed.

#[local] Instance lex_le_total : Total lex_le.
Proof. intros a b. unfold lex_le. apply String.leb_total. Qed.

Lemma lex_le_compare (a b : string) : lex_le a b <-> String.compare a b <> Gt.
Proof. unfold lex_le, String.leb. destruct (String.compare a b); intuition congruence. Qed.

Lemma lex_lt_compare (a b : string) : lex_lt a b <-> String.compare a b = Lt.
Proof. unfold lex_lt, String.ltb. destruct (String.compare a b); intuition congruence. Qed.

#[local] Instance lex_le_trans : Transitive lex_le.
Proof.
  intros a b c. rewrite !lex_le_compare. intros H1 H2.
  by destruct (string_compare_trans a b c H1 H2).
Qed.

Lemma lex_lt_le_trans (a b c : string) : lex_lt a b -> lex_le b c -> lex_lt a c.
Proof.
  rewrite !lex_lt_compare, lex_le_compare. intros H1 H2.
  apply (string_compare_trans a b c); [congruence | done | by left].
Qed.

Lemma not_lex_lt (a b : string) : String.ltb a b = false -> lex_le b a.
Proof.
  unfold lex_le, String.ltb, String.leb. rewrite (String.compare_antisym a b).
  by destruct (String.compare b a).
Qed.

Lemma sorted_keys_registered (tools : gmap string ToolDescriptor) (k : string) :
  k ∈ sorted_keys tools <-> is_Some (tools !! k).
Proof.
  unfold sorted_keys. rewrite merge_sort_Permutation, list_elem_of_fmap. split.
  - intros [[k' d] [-> Hin]]. apply elem_of_map_to_list in Hin. by eexists.
  - intros [d Hd]. exists (k, d). split; [done|]. by apply elem_of_map_to_list.
Qed.

Lemma sorted_keys_sorted (tools : gmap string ToolDescriptor) :
  StronglySorted lex_le (sorted_keys tools) /\ NoDup (sorted_keys tools).
Proof.
  split.
  - apply StronglySorted_merge_sort; apply _.
  - unfold sorted_keys. rewrite merge_sort_Permutation. apply NoDup_fst_map_to_list.
Qed.

(** [after] cuts a sorted list in two: what is not above the cursor, then what
    is above it. *)
Lemma after_splits (c : string) (keys : list string) :
  StronglySorted lex_le keys ->
  exists before,
    keys = (before ++ after c keys)%list /\
    (forall k, k ∈ before -> lex_le k c) /\
    (forall k, k ∈ after c keys -> lex_lt c k).
Proof.
  induction 1 as [|k keys Hs IH Hall].
  - exists []. repeat split; intros k Hk; by apply not_elem_of_nil in Hk.
  - simpl. destruct (String.ltb c k) eqn:Hck.
    + exists []. split; [done|]. split; [intros k' Hk'; by apply not_elem_of_nil in Hk'|].
      intros k' Hk'. apply elem_of_cons in Hk' as [->|Hk']; [done|].
      apply (lex_lt_le_trans c k k'); [done|].
      rewrite Forall_forall in Hall. by apply Hall.
    + destruct IH as (before & Heq & Hb & Ha). exists (k :: before).
      split; [by rewrite <- app_comm_cons, <- Heq|]. split; [|done].
      intros k' Hk'. apply elem_of_cons in Hk' as [->|Hk']; [by apply not_lex_lt | by apply Hb].
Qed.

Lemma descriptors_of_registered (tools : gmap string ToolDescriptor) (ks : list string) :
  (forall k, k ∈ ks -> is_Some (tools !! k)) ->
  Forall2 (fun k d => tools !! k = Some d) ks (omap (fun k => tools !! k) ks).
Proof.
  induction ks as [|k ks IH]; intros H; simpl; [constructor|].
  destruct (H k) as [d Hd]; [by left|]. rewrite Hd. constructor; [done|].
  apply IH. intros k' Hk'. apply H. by right.
Qed.

Lemma page_of_spec (tools : gmap string ToolDescriptor) (limit : nat) (from : list string) :
  (0 < limit)%nat ->
  (forall k, k ∈ from -> is_Some (tools !! k)) ->
  exists returned rest descriptors,
    from = (returned ++ rest)%list /\
    length returned = (limit `min` length from)%nat /\
    Forall2 (fun k d => tools !! k = Some d) returned descriptors /\
    page_of tools limit from = mkPage descriptors (NextCursor (page_of tools limit from)) /\
    (rest = [] -> NextCursor (page_of tools limit from) = None) /\
    (rest <> [] -> exists k, last returned = Some k /\
                             NextCursor (page_of tools limit from) = Some k).
Proof.
  intros Hlimit Hreg.
  exists (take limit from), (drop limit from), (omap (fun k => tools !! k) (take limit from)).
  split; [by rewrite take_drop|]. split; [apply length_take|]. split.
  { apply descriptors_of_registered. intros k Hk. apply Hreg.
    rewrite <- (take_drop limit from). apply elem_of_app. by left. }
  split; [done|]. unfold page_of. simpl. split.
  - by intros ->.
  - intros Hrest. destruct (drop limit from) as [|k' rest'] eqn:Hdrop; [done|].
    assert (limit < length from)%nat as Hlt.
    { destruct (decide (limit < length from)%nat) as [|Hge]; [done|].
      rewrite drop_ge in Hdrop by lia. done. }
    destruct (last (take limit from)) as [k|] eqn:Hlast; [by exists k|].
    apply last_None in Hlast. apply (f_equal length) in Hlast.
    rewrite length_take in Hlast. simpl in Hlast. lia.
Qed.

(** C8. For every registry, every page size above zero and every cursor, the
    list operation works on the registered keys in lexicographic order; with
    no cursor or a registered one, it returns the descriptors of up to
    [limit] consecutive keys starting at the first key strictly greater than
    the cursor (the first key when there is none), with [nextCursor] the last
    returned key when keys remain after the page and absent otherwise; a
    cursor that is no registered key is an invalid-cursor error. *)
Theorem list_by_pages (tools : gmap string ToolDescriptor) (limit : nat)
    (cursor : option string) :
  (0 < limit)%nat -> is_page tools limit cursor.
Proof.
  intros Hlimit. unfold is_page.
  destruct (sorted_keys_sorted tools) as [Hsorted Hnodup].
  split; [split; [done|split; [done|apply sorted_keys_registered]]|]. split.
  - intros c -> Hnone. unfold handleListTools. by rewrite Hnone.
  - intros Hcursor. destruct cursor as [c|].
    + destruct Hcursor as [|(c' & [= <-] & [d Hd])]; [done|].
      destruct (after_splits c (sorted_keys tools) Hsorted) as (before & Heq & Hb & Ha).
      destruct (page_of_spec tools limit (after c (sorted_keys tools)) Hlimit)
        as (returned & rest & descriptors & Hfrom & Hlen & Hdesc & Hpage & Hnil & Hmore).
      { intros k Hk. apply sorted_keys_registered. rewrite Heq. apply elem_of_app. by right. }
      exists before, returned, rest, descriptors,
        (NextCursor (page_of tools limit (after c (sorted_keys tools)))).
      split; [by rewrite <- Hfrom|]. split; [by rewrite <- Hfrom|].
      split; [by rewrite <- Hfrom|]. split; [done|].
      split; [unfold handleListTools; by rewrite Hd, <- Hpage|]. by split.
    + destruct (page_of_spec tools limit (sorted_keys tools) Hlimit)
        as (returned & rest & descriptors & Hfrom & Hlen & Hdesc & Hpage & Hnil & Hmore).
      { intros k Hk. by apply sorted_keys_registered. }
      exists [], returned, rest, descriptors,
        (NextCursor (page_of tools limit (sorted_keys tools))).
      split; [done|]. split; [done|]. split; [by rewrite <- Hfrom|]. split; [done|].
      split; [unfold handleListTools; by rewrite <- Hpage|]. by split.
Qed.

Lemma list_by_pages_witness : (0 < 2)%nat /\ is_page test_tools 2 (Some "b-tool").
Proof. split; [lia|]. apply (list_by_pages test_tools 2 (Some "b-tool")). lia. Defined.

(** * Further properties of the code *)

(** ** Two requests in flight *)

(** A response for slot [k] meets the call suspended under [k]. *)
Lemma answer_one (s : Bridge.t) (k : Z) (ch : Chan) (id : RequestId) message response :
  ResponseMap s !! k = Some ch ->
  receivers s !! ch = Some (mkReceiver k (Some id)) ->
  JsonRpcResponse message = Some response ->
  BaseJSONRPCResponse.Id response = k ->
  BaseTransport.Send s message = (s, SendOn ch) /\
  BaseTransport.HandleMessage_resume s ch message
  = Some (release s ch k, Returns (Some (set_response_id message response id)) None).
Proof.
  intros Hk Hch Hresp Hid. split.
  - unfold BaseTransport.Send, Send. rewrite Hresp. subst k.
    change (transport.RequestId) with Z in *. by rewrite Hk.
  - unfold BaseTransport.HandleMessage_resume. rewrite Hch. simpl. by rewrite Hresp.
Qed.

(** X1. Two requests handled one after the other on a [BaseTransport] with
    two free slots get different slots and different channels; their
    responses can come in either order: each goes to the call whose slot its
    id names and comes back with that call's client id, and when both are
    answered the response map and the suspended calls are what they were
    before the two requests. *)
Theorem two_requests_do_not_mix d (s : Bridge.t) bodyA bodyB requestA requestB :
  fresh_channels s ->
  BaseTransport.as_request d bodyA = Ok requestA ->
  BaseTransport.as_request d bodyB = Ok requestB ->
  (exists j1 j2, 0 <= j1 < j2 /\ j2 <= 1000000 /\
                 ResponseMap s !! j1 = None /\ ResponseMap s !! j2 = None) ->
  exists sA chA sB chB kA kB,
    BaseTransport.HandleMessage d s bodyA
    = (sA, call_handler s (NewBaseMessageRequest (BaseTransport.with_id requestA kA)), chA) /\
    BaseTransport.HandleMessage d sA bodyB
    = (sB, call_handler s (NewBaseMessageRequest (BaseTransport.with_id requestB kB)), chB) /\
    kA <> kB /\ chA <> chB /\
    forall messageA responseA messageB responseB,
      JsonRpcResponse messageA = Some responseA ->
      BaseJSONRPCResponse.Id responseA = kA ->
      JsonRpcResponse messageB = Some responseB ->
      BaseJSONRPCResponse.Id responseB = kB ->
      let returnA :=
        Returns (Some (set_response_id messageA responseA (BaseJSONRPCRequest.Id requestA)))
                None in
      let returnB :=
        Returns (Some (set_response_id messageB responseB (BaseJSONRPCRequest.Id requestB)))
                None in
      (* B is answered first *)
      (exists s3 s4,
         BaseTransport.Send sB messageB = (sB, SendOn chB) /\
         BaseTransport.HandleMessage_resume sB chB messageB = Some (s3, returnB) /\
         BaseTransport.Send s3 messageA = (s3, SendOn chA) /\
         BaseTransport.HandleMessage_resume s3 chA messageA = Some (s4, returnA) /\
         ResponseMap s4 = ResponseMap s /\ receivers s4 = receivers s) /\
      (* A is answered first *)
      (exists s3 s4,
         BaseTransport.Send sB messageA = (sB, SendOn chA) /\
         BaseTransport.HandleMessage_resume sB chA messageA = Some (s3, returnA) /\
         BaseTransport.Send s3 messageB = (s3, SendOn chB) /\
         BaseTransport.HandleMessage_resume s3 chB messageB = Some (s4, returnB) /\
         ResponseMap s4 = ResponseMap s /\ receivers s4 = receivers s).
Proof.
  intros [Hfm Hfr] HA HB (j1 & j2 & Hj & Hj2 & Hf1 & Hf2).
  set (m := ResponseMap s). set (kA := free_key m). set (chA := made s).
  set (kB := free_key (<[kA := chA]> m)).
  set (idA := BaseJSONRPCRequest.Id requestA). set (idB := BaseJSONRPCRequest.Id requestB).
  assert (m !! kA = None) as HkA by (apply (free_key_finds m j1); [unfold slot_limit; lia|done]).
  assert (<[kA := chA]> m !! kB = None) as HkB.
  { destruct (decide (kA = j1)) as [Heq|Hne].
    - apply (free_key_finds _ j2); [unfold slot_limit; lia|].
      rewrite lookup_insert_ne by lia. done.
    - apply (free_key_finds _ j1); [unfold slot_limit; lia|].
      by rewrite lookup_insert_ne. }
  assert (kA <> kB) as Hne.
  { intros Heq. rewrite <- Heq, lookup_insert_eq in HkB. done. }
  assert (m !! kB = None) as HkB' by (by rewrite lookup_insert_ne in HkB).
  assert (receivers s !! chA = None) as HrA.
  { destruct (receivers s !! chA) as [r|] eqn:Hr; [|done]. specialize (Hfr _ _ Hr).
    unfold chA in Hfr. lia. }
  assert (receivers s !! S chA = None) as HrB.
  { destruct (receivers s !! S chA) as [r|] eqn:Hr; [|done]. specialize (Hfr _ _ Hr).
    unfold chA in Hfr. lia. }
  set (sA := waiting_state s (Some idA)). set (sB := waiting_state sA (Some idB)).
  assert (ResponseMap sB = <[kB := S chA]> (<[kA := chA]> m)) as HmB by reflexivity.
  assert (receivers sB = <[S chA := mkReceiver kB (Some idB)]>
                           (<[chA := mkReceiver kA (Some idA)]> (receivers s))) as HrcvB
    by reflexivity.
  exists sA, chA, sB, (S chA), kA, kB.
  split.
  { unfold BaseTransport.HandleMessage, BaseTransport.dispatch. rewrite HA. reflexivity. }
  split.
  { unfold BaseTransport.HandleMessage, BaseTransport.dispatch. rewrite HB. reflexivity. }
  split; [done|]. split; [lia|].
  intros messageA responseA messageB responseB HrespA HidA HrespB HidB returnA returnB.
  split.
  - exists (release sB (S chA) kB), (release (release sB (S chA) kB) chA kA).
    destruct (answer_one sB kB (S chA) idB messageB responseB) as [HsB HresB]; [|  |done..|].
    { rewrite HmB. by simplify_map_eq. }
    { rewrite HrcvB. by simplify_map_eq. }
    split; [exact HsB|]. split; [exact HresB|].
    destruct (answer_one (release sB (S chA) kB) kA chA idA messageA responseA)
      as [HsA HresA]; [| |done..|].
    { cbn [release ResponseMap]. rewrite HmB. by simplify_map_eq. }
    { cbn [release receivers]. rewrite HrcvB.
      rewrite lookup_delete_ne, lookup_insert_ne by lia. apply lookup_insert_eq. }
    split; [exact HsA|]. split; [exact HresA|]. cbn [release ResponseMap receivers].
    rewrite HmB, HrcvB. split; apply map_eq; intros i;
      rewrite !lookup_delete, !lookup_insert; repeat case_decide; subst;
      try congruence; try lia; try (symmetry; assumption).
  - exists (release sB chA kA), (release (release sB chA kA) (S chA) kB).
    destruct (answer_one sB kA chA idA messageA responseA) as [HsA HresA]; [| |done..|].
    { rewrite HmB. by simplify_map_eq. }
    { rewrite HrcvB. rewrite lookup_insert_ne by lia. apply lookup_insert_eq. }
    split; [exact HsA|]. split; [exact HresA|].
    destruct (answer_one (release sB chA kA) kB (S chA) idB messageB responseB)
      as [HsB HresB]; [| |done..|].
    { cbn [release ResponseMap]. rewrite HmB. by simplify_map_eq. }
    { cbn [release receivers]. rewrite HrcvB.
      rewrite lookup_delete_ne by lia. apply lookup_insert_eq. }
    split; [exact HsB|]. split; [exact HresB|]. cbn [release ResponseMap receivers].
    rewrite HmB, HrcvB. split; apply map_eq; intros i;
      rewrite !lookup_delete, !lookup_insert; repeat case_decide; subst;
      try congruence; try lia; try (symmetry; assumption).
Qed.

Lemma two_requests_do_not_mix_witness :
  (fresh_channels Samples.serving /\
   BaseTransport.as_request BaseTransport.plain (Samples.request_body 7)
     = Ok (Samples.a_request 7) /\
   BaseTransport.as_request BaseTransport.plain (Samples.request_body 9)
     = Ok (Samples.a_request 9) /\
   ResponseMap Samples.serving !! 0 = None /\ ResponseMap Samples.serving !! 1 = None) /\
  exists sA chA sB chB kA kB,
    BaseTransport.HandleMessage BaseTransport.plain Samples.serving (Samples.request_body 7)
    = (sA, call_handler Samples.serving
             (NewBaseMessageRequest (BaseTransport.with_id (Samples.a_request 7) kA)), chA) /\
    BaseTransport.HandleMessage BaseTransport.plain sA (Samples.request_body 9)
    = (sB, call_handler Samples.serving
             (NewBaseMessageRequest (BaseTransport.with_id (Samples.a_request 9) kB)), chB) /\
    kA <> kB /\ chA <> chB.
Proof.
  assert (fresh_channels Samples.serving) as Hfresh.
  { split; intros ? ? H; vm_compute in H; discriminate. }
  split; [split; [exact Hfresh|repeat split; reflexivity]|].
  destruct (two_requests_do_not_mix BaseTransport.plain Samples.serving
              (Samples.request_body 7) (Samples.request_body 9)
              (Samples.a_request 7) (Samples.a_request 9) Hfresh eq_refl eq_refl)
    as (sA & chA & sB & chB & kA & kB & HA & HB & Hk & Hch & _).
  { exists 0, 1. repeat split; try lia; reflexivity. }
  exists sA, chA, sB, chB, kA, kB. by repeat split.
Defined.

(** ** What every run of a [BaseTransport] keeps *)

Lemma step_keeps_range d (s s' : Bridge.t) :
  step d s s' -> slots_in_range s -> slots_in_range s'.
Proof.
  intros Hstep Hrange. destruct Hstep as [s body|s message ch s' ret Hsend Hres| | | | ];
    try done.
  - unfold BaseTransport.HandleMessage. simpl.
    destruct (BaseTransport.dispatch _ _ _ _) as [prev ev]. intros k ch. simpl.
    rewrite lookup_insert. case_decide as Hk.
    + intros _. subst k. apply free_key_range.
    + apply Hrange.
  - unfold BaseTransport.HandleMessage_resume in Hres.
    destruct (receivers s !! ch) as [r|] eqn:Hr; [|done]. simpl in Hres.
    assert (s' = release s ch (key r)) as ->.
    { destruct (prevId r); [destruct (JsonRpcResponse message)|]; by injection Hres as <- _. }
    intros k ch'. simpl. rewrite lookup_delete. case_decide; [done|apply Hrange].
Qed.

Lemma run_keeps_range d (s : Bridge.t) : rtc (step d) new s -> slots_in_range s.
Proof.
  revert s. apply (rtc_ind_r (R := step d) slots_in_range new).
  - intros k ch H. simpl in H. by rewrite lookup_empty in H.
  - intros s s' _ Hstep IH. by apply (step_keeps_range d s s').
Qed.

Lemma range_bounds_size (m : gmap Z Chan) :
  (forall k ch, m !! k = Some ch -> 0 <= k <= slot_limit) -> Z.of_nat (size m) <= 1000001.
Proof.
  intros Hrange. rewrite <- size_dom.
  assert (size (dom m) <= size (list_to_set (C := gset Z) (seqZ 0 1000001)))%nat as Hle.
  2: { rewrite size_list_to_set in Hle by apply NoDup_seqZ. rewrite length_seqZ in Hle. lia. }
  apply subseteq_size. intros k Hk. apply elem_of_dom in Hk as [ch Hch].
  apply elem_of_list_to_set, elem_of_seqZ. specialize (Hrange _ _ Hch).
  unfold slot_limit in Hrange. lia.
Qed.

(** X2. Along every run of a [BaseTransport] -- calls to [HandleMessage],
    responses sent to waiting calls, [Close], handlers installed -- every
    slot in the response map lies in 0..1000000 and holds the channel of a
    call that is suspended under that very slot, two slots never hold the same
    channel, the map never has more than 1000001 entries, and it is empty
    whenever no call is suspended. *)
Theorem run_is_well_routed d (s : Bridge.t) :
  rtc (step d) new s ->
  (forall k ch, ResponseMap s !! k = Some ch ->
     0 <= k <= 1000000 /\ exists p, receivers s !! ch = Some (mkReceiver k p)) /\
  (forall k1 k2 ch, ResponseMap s !! k1 = Some ch -> ResponseMap s !! k2 = Some ch -> k1 = k2) /\
  Z.of_nat (size (ResponseMap s)) <= 1000001 /\
  (receivers s = ∅ -> ResponseMap s = ∅).
Proof.
  intros Hrun. destruct (run_keeps_invariants d s Hrun) as [_ Hheld].
  pose proof (run_keeps_range d s Hrun) as Hrange.
  split; [|split; [|split]].
  - intros k ch Hk. split; [apply (Hrange _ _ Hk) | apply (Hheld _ _ Hk)].
  - intros k1 k2 ch H1 H2. destruct (Hheld _ _ H1) as [p1 Hp1], (Hheld _ _ H2) as [p2 Hp2].
    rewrite Hp1 in Hp2. by injection Hp2.
  - by apply range_bounds_size.
  - by apply (no_call_no_slot d).
Qed.

Lemma run_is_well_routed_witness :
  let s1 := (BaseTransport.HandleMessage BaseTransport.plain new (Samples.request_body 7)).1.1 in
  rtc (step BaseTransport.plain) new s1 /\
  (forall k ch, ResponseMap s1 !! k = Some ch ->
     0 <= k <= 1000000 /\ exists p, receivers s1 !! ch = Some (mkReceiver k p)) /\
  (forall k1 k2 ch,
     ResponseMap s1 !! k1 = Some ch -> ResponseMap s1 !! k2 = Some ch -> k1 = k2) /\
  Z.of_nat (size (ResponseMap s1)) <= 1000001 /\
  (receivers s1 = ∅ -> ResponseMap s1 = ∅).
Proof.
  intros s1.
  assert (rtc (step BaseTransport.plain) new s1) as Hrun.
  { apply rtc_once. apply step_handle. }
  split; [exact Hrun|]. exact (run_is_well_routed BaseTransport.plain s1 Hrun).
Defined.

(** ** The probe yields the least free slot *)

Lemma free_key_char (m : gmap Z Chan) (f : Z) :
  free_key m = f <->
  0 <= f <= slot_limit /\
  (forall j, 0 <= j < f -> is_Some (m !! j)) /\
  (f < slot_limit -> m !! f = None).
Proof.
  split.
  - intros <-. split; [apply free_key_range|]. split; [apply free_key_least|apply free_key_free].
  - intros (Hr & Hocc & Hfree).
    pose proof (free_key_range m) as Hr'.
    destruct (Z.lt_trichotomy (free_key m) f) as [Hlt|[Heq|Hgt]]; [|done|].
    + destruct (Hocc (free_key m) ltac:(lia)) as [c Hc].
      rewrite free_key_free in Hc by lia. done.
    + destruct (free_key_least m f ltac:(lia)) as [c Hc].
      rewrite Hfree in Hc by lia. done.
Qed.

(** X3. The slot a call takes is the least slot of 0..999999 that is not in
    the response map, and 1000000 when there is none.  Hence slots are reused
    lowest first: once slot [k] has been deleted, the next call takes [k] if
    [k] is below the slot it would have taken otherwise, and that slot if
    not. *)
Theorem slots_are_reused_lowest_first (m : gmap Z Chan) (k : Z) :
  0 <= k ->
  (forall f, free_key m = f <->
     0 <= f <= 1000000 /\
     (forall j, 0 <= j < f -> is_Some (m !! j)) /\
     (f < 1000000 -> m !! f = None)) /\
  free_key (delete k m) = Z.min k (free_key m).
Proof.
  intros Hk. split; [apply free_key_char|].
  pose proof (free_key_range m) as Hr. apply free_key_char.
  destruct (decide (k < free_key m)) as [Hlt|Hge].
  - rewrite Z.min_l by lia. split; [lia|]. split.
    + intros j Hj. rewrite lookup_delete_ne by lia. apply free_key_least. lia.
    + intros _. apply lookup_delete_eq.
  - rewrite Z.min_r by lia. split; [lia|]. split.
    + intros j Hj. rewrite lookup_delete_ne by lia. by apply free_key_least.
    + intros Hlim. rewrite lookup_delete. case_decide; [done|]. by apply free_key_free.
Qed.

Lemma slots_are_reused_lowest_first_witness :
  0 <= 1 /\
  free_key (delete 1 (<[0 := 0%nat]> (<[1 := 1%nat]> (<[2 := 2%nat]> ∅))))
  = Z.min 1 (free_key (<[0 := 0%nat]> (<[1 := 1%nat]> (<[2 := 2%nat]> ∅)))).
Proof.
  split; [lia|].
  apply (slots_are_reused_lowest_first
           (<[0 := 0%nat]> (<[1 := 1%nat]> (<[2 := 2%nat]> ∅))) 1).
  lia.
Defined.

(** ** A call whose channel has left the map *)

Lemma step_keeps_orphan d (s s' : Bridge.t) (ch : Chan) (r : Receiver) :
  step d s s' ->
  (ch < made s)%nat /\ (forall k, ResponseMap s !! k <> Some ch) /\ receivers s !! ch = Some r ->
  (ch < made s')%nat /\ (forall k, ResponseMap s' !! k <> Some ch) /\ receivers s' !! ch = Some r.
Proof.
  intros Hstep (Hlt & Hout & Hrcv).
  destruct Hstep as [s body|s message ch' s' ret Hsend Hres| | | | ]; try done.
  - unfold BaseTransport.HandleMessage. simpl.
    destruct (BaseTransport.dispatch _ _ _ _) as [prev ev]. simpl.
    split; [lia|]. split.
    + intros k. rewrite lookup_insert. case_decide; [intros [= Hch]; lia | apply Hout].
    + rewrite lookup_insert_ne by lia. done.
  - assert (ch' <> ch) as Hne.
    { intros ->. unfold BaseTransport.Send, Send in Hsend.
      destruct (JsonRpcResponse message) as [resp|]; [|done].
      destruct (ResponseMap s !! BaseJSONRPCResponse.Id resp) as [c|] eqn:Hc; [|done].
      simpl in Hsend. injection Hsend as ->. by apply (Hout _ Hc). }
    unfold BaseTransport.HandleMessage_resume in Hres.
    destruct (receivers s !! ch') as [r'|] eqn:Hr; [|done]. simpl in Hres.
    assert (s' = release s ch' (key r')) as ->.
    { destruct (prevId r'); [destruct (JsonRpcResponse message)|]; by injection Hres as <- _. }
    simpl. split; [done|]. split.
    + intros k. rewrite lookup_delete. case_decide; [done|apply Hout].
    + by rewrite lookup_delete_ne.
Qed.

Lemma run_keeps_orphan d (s s' : Bridge.t) (ch : Chan) (r : Receiver) :
  rtc (step d) s s' ->
  (ch < made s)%nat /\ (forall k, ResponseMap s !! k <> Some ch) /\ receivers s !! ch = Some r ->
  (ch < made s')%nat /\ (forall k, ResponseMap s' !! k <> Some ch) /\ receivers s' !! ch = Some r.
Proof.
  intros Hrun H0. revert s' Hrun.
  apply (rtc_ind_r (R := step d)
           (fun s' => (ch < made s')%nat /\ (forall k, ResponseMap s' !! k <> Some ch) /\
                      receivers s' !! ch = Some r) s); [done|].
  intros s1 s2 _ Hstep IH. by apply (step_keeps_orphan d s1 s2).
Qed.

(** X4. When slots 0 to 1000000 are all taken and a further body is handled,
    the call that was waiting under slot 1000000 is lost: its channel is no
    longer in the response map, and along every continuation of the run it
    stays suspended, no [Send] ever being directed to its channel. *)
Theorem overwritten_call_is_lost d (s s' : Bridge.t) body (old : Chan) :
  fresh_channels s ->
  slots_are_held s ->
  (forall j, 0 <= j < 1000000 -> is_Some (ResponseMap s !! j)) ->
  ResponseMap s !! 1000000 = Some old ->
  rtc (step d) (BaseTransport.HandleMessage d s body).1.1 s' ->
  (exists p, receivers s' !! old = Some (mkReceiver 1000000 p)) /\
  (forall message, (BaseTransport.Send s' message).2 <> SendOn old).
Proof.
  intros [Hfm Hfr] Hheld Hfull Hold Hrun.
  destruct (Hheld _ _ Hold) as [p Hp].
  destruct (HandleMessage_when_exhausted d s body Hfull) as (s1 & ev & prev & Heq & Hmap & Hrcv).
  rewrite Heq in Hrun. simpl in Hrun.
  assert (receivers s1 !! old = Some (mkReceiver 1000000 p) /\ (old < made s1)%nat) as [Hp1 Hlt1].
  { unfold BaseTransport.HandleMessage in Heq. rewrite (allocate_when_exhausted s Hfull) in Heq.
    destruct (BaseTransport.dispatch _ _ _ _) as [pr e]. injection Heq as <- _.
    simpl. specialize (Hfm _ _ Hold). rewrite lookup_insert_ne by lia. split; [done|lia]. }
  destruct (run_keeps_orphan d s1 s' old (mkReceiver 1000000 p) Hrun) as (_ & Hout & Hrcv').
  { split; [done|]. split; [|done]. intros k. rewrite Hmap, lookup_insert.
    case_decide as Hk.
    - intros [= Heq']. specialize (Hfm _ _ Hold). lia.
    - intros Hk'. destruct (Hheld _ _ Hk') as [p' Hp']. rewrite Hp in Hp'.
      injection Hp' as Heq' _. unfold slot_limit in Hk. congruence. }
  split; [by exists p|].
  intros message. unfold BaseTransport.Send, Send.
  destruct (JsonRpcResponse message) as [resp|]; [|done].
  destruct (ResponseMap s' !! BaseJSONRPCResponse.Id resp) as [c|] eqn:Hc; [|done].
  simpl. intros [= ->]. by apply (Hout _ Hc).
Qed.

Lemma taken_lookup_inv (n : nat) (k : Z) (c : Chan) :
  ResponseMap (Samples.taken n) !! k = Some c -> (c < n)%nat /\ k = Z.of_nat c.
Proof.
  simpl. intros H. apply lookup_map_seqZ_Some in H as [Hk H].
  apply lookup_seq in H as [-> Hlt]. lia.
Qed.

Lemma taken_receivers (n : nat) (c : Chan) (r : Receiver) :
  receivers (Samples.taken n) !! c = Some r <->
  (c < n)%nat /\ r = mkReceiver (Z.of_nat c) (Some (Z.of_nat c)).
Proof.
  simpl. rewrite lookup_map_seq_0, list_lookup_fmap. split.
  - intros H. apply fmap_Some in H as (x & Hx & ->).
    apply lookup_seq in Hx as [-> Hlt]. done.
  - intros [Hlt ->]. apply fmap_Some. exists c. split; [|done].
    by apply lookup_seq.
Qed.

Lemma fresh_channels_taken (n : nat) : fresh_channels (Samples.taken n).
Proof.
  split.
  - intros k c H. by apply taken_lookup_inv in H as [? _].
  - intros c r H. by apply taken_receivers in H as [? _].
Qed.

Lemma slots_are_held_taken (n : nat) : slots_are_held (Samples.taken n).
Proof.
  intros k c H. apply taken_lookup_inv in H as [Hlt ->].
  exists (Some (Z.of_nat c)). by apply taken_receivers.
Qed.

Lemma overwritten_call_is_lost_witness :
  let s1 := (BaseTransport.HandleMessage BaseTransport.plain Samples.overfull
               (Samples.request_body 7)).1.1 in
  let s2 := (BaseTransport.HandleMessage BaseTransport.plain s1 (Samples.request_body 8)).1.1 in
  (exists p, receivers s2 !! Z.to_nat 1000000 = Some (mkReceiver 1000000 p)) /\
  (forall message, (BaseTransport.Send s2 message).2 <> SendOn (Z.to_nat 1000000)).
Proof.
  intros s1 s2.
  apply (overwritten_call_is_lost BaseTransport.plain Samples.overfull s2
           (Samples.request_body 7) (Z.to_nat 1000000)).
  - apply fresh_channels_taken.
  - apply slots_are_held_taken.
  - intros j Hj. exists (Z.to_nat j). apply overfull_is_full. unfold slot_limit. lia.
  - apply (overfull_is_full 1000000). unfold slot_limit. lia.
  - apply rtc_once. apply step_handle.
Defined.

(** ** Relaying through the endpoint of [baseTransport] *)

Lemma set_Common_raw (c c' : JSONRPCCommon.t) (k : string) (v : json) :
  set_Common c k v = Some c' ->
  raw_ok (JSONRPCCommon.Params c) /\ raw_ok (JSONRPCCommon.Result c) ->
  raw_ok (JSONRPCCommon.Params c') /\ raw_ok (JSONRPCCommon.Result c').
Proof.
  destruct c as [id jsonrpc method params res err]. unfold set_Common. simpl.
  intros H [Hp Hr].
  repeat (match type of H with
          | (if ?b then _ else _) = _ => destruct b
          | (_ ≫= _) = _ => apply bind_Some in H as (? & _ & H)
          end);
    injection H as <-; by simpl.
Qed.

Lemma Unmarshal_Common_raw body (tmp : JSONRPCCommon.t) :
  Unmarshal_Common body = Ok tmp ->
  raw_ok (JSONRPCCommon.Params tmp) /\ raw_ok (JSONRPCCommon.Result tmp).
Proof.
  unfold Unmarshal_Common, Unmarshal_struct.
  destruct body as [[| | | | | |fields]|]; try done.
  - by intros [= <-].
  - assert (forall acc a,
              foldl (fun acc kv => a ← acc; set_Common a kv.1 kv.2) acc fields = Some a ->
              (forall a0, acc = Some a0 ->
                 raw_ok (JSONRPCCommon.Params a0) /\ raw_ok (JSONRPCCommon.Result a0)) ->
              raw_ok (JSONRPCCommon.Params a) /\ raw_ok (JSONRPCCommon.Result a)) as Hfold.
    { induction fields as [|[k v] fields IH]; intros acc a Hf Hacc; simpl in Hf.
      - by apply Hacc.
      - apply (IH _ _ Hf). intros a0 Ha0. apply bind_Some in Ha0 as (a1 & -> & Hset).
        simpl in Hset. apply (set_Common_raw _ _ _ _ Hset). by apply Hacc. }
    destruct (foldl _ _ fields) as [a|] eqn:Hf; [|done].
    intros [= <-]. apply (Hfold _ _ Hf). by intros a0 [= <-].
Qed.

(** The state in which a request waits at the endpoint, and what the next
    call finds there. *)
Lemma Gin_waiting_call (s : Bridge.t) body tmp id0 (j : Z) :
  fresh_channels s ->
  0 <= j < 1000000 ->
  ResponseMap s !! j = None ->
  Unmarshal_Common body = Ok tmp ->
  baseTransport.shape tmp = baseTransport.IsRequest id0 ->
  exists s1 events,
    GinTransport.Handler s (Samples.post body) = (s1, events, Http.Waiting (made s)) /\
    ResponseMap s1 = <[free_key (ResponseMap s) := made s]> (ResponseMap s) /\
    receivers s1 = <[made s := mkReceiver (free_key (ResponseMap s)) (Some id0)]> (receivers s) /\
    made s1 = S (made s) /\
    ResponseMap s !! free_key (ResponseMap s) = None /\
    receivers s !! made s = None /\
    free_key (ResponseMap s) <> free_key (ResponseMap s1).
Proof.
  intros [Hfm Hfr] Hj Hfree Hdec Hshape.
  unfold GinTransport.Handler. simpl.
  rewrite (handleMessage_of_request s body tmp id0 Hdec Hshape).
  eexists _, _. split; [reflexivity|]. simpl.
  assert (ResponseMap s !! free_key (ResponseMap s) = None) as Hk
    by (apply (free_key_finds _ j); [unfold slot_limit; lia|done]).
  assert (free_key (ResponseMap s) < slot_limit) as Hlt.
  { destruct (decide (free_key (ResponseMap s) <= j)) as [|Hgt]; [unfold slot_limit; lia|].
    destruct (free_key_least (ResponseMap s) j ltac:(lia)) as [c Hc]. congruence. }
  repeat split; try done.
  - destruct (receivers s !! made s) as [r|] eqn:Hr; [|done].
    specialize (Hfr _ _ Hr). lia.
  - intros Heq.
    set (m1 := <[free_key (ResponseMap s) := made s]> (ResponseMap s)) in *.
    pose proof (free_key_range m1) as Hr1.
    assert (m1 !! free_key m1 = None) as Hnone by (apply free_key_free; lia).
    rewrite <- Heq in Hnone. unfold m1 in Hnone. by rewrite lookup_insert_eq in Hnone.
Qed.

(** X5. A request is waiting at the endpoint of [GinTransport] and a body
    with a result and the slot of that request as id is POSTed: the posting
    call hands the response to the waiting call, which replies 200 with the
    response under the id the client sent; the posting call then replies 200
    with [null].  The waiting call leaves the transport and its slot is
    deleted, the slot that the posting call took stays in the map. *)
Theorem posted_response_is_relayed (s : Bridge.t) body bodyR tmp tmpR id0 (j : Z) :
  fresh_channels s ->
  0 <= j < 1000000 ->
  ResponseMap s !! j = None ->
  Unmarshal_Common body = Ok tmp ->
  baseTransport.shape tmp = baseTransport.IsRequest id0 ->
  Unmarshal_Common bodyR = Ok tmpR ->
  baseTransport.shape tmpR = baseTransport.IsResponse (free_key (ResponseMap s)) ->
  exists s1 events ch s2 message s3 res,
    GinTransport.Handler s (Samples.post body) = (s1, events, Http.Waiting ch) /\
    GinTransport.Handler s1 (Samples.post bodyR) = (s2, [], Http.Delivering ch message) /\
    JSONRPCCommon.Result tmpR = RawJSON res /\
    GinTransport.Handler_resume s2 ch message
    = Some (s3, [],
            Http.Replied (Http.mkReply 200
              (Http.Data (JObject [("id", JInt id0);
                                   ("jsonrpc", JString (JSONRPCCommon.Jsonrpc tmpR));
                                   ("result", res)])))) /\
    GinTransport.Handler_finish s3 baseTransport.handleMessage_sent
    = ([], Http.Replied (Http.mkReply 200 (Http.Data JNull))) /\
    receivers s3 = receivers s /\
    ResponseMap s3 = <[free_key (ResponseMap s1) := S ch]> (ResponseMap s).
Proof.
  intros Hfresh Hj Hfree Hdec Hshape HdecR HshapeR.
  destruct (Gin_waiting_call s body tmp id0 j Hfresh Hj Hfree Hdec Hshape)
    as (s1 & events & Hcall & Hmap1 & Hrcv1 & Hmade1 & Hk & Hch & Hne).
  set (k := free_key (ResponseMap s)) in *.
  assert (ResponseMap s1 !! k = Some (made s)) as Hk1 by (rewrite Hmap1; apply lookup_insert_eq).
  assert (exists res, JSONRPCCommon.Result tmpR = RawJSON res) as [res Hres].
  { destruct (Unmarshal_Common_raw _ _ HdecR) as [_ Hraw].
    unfold baseTransport.shape in HshapeR.
    destruct (baseTransport.nonempty _), (JSONRPCCommon.Id tmpR); try done.
    destruct (JSONRPCCommon.Result tmpR) as [|res|]; [|by exists res|done].
    simpl in HshapeR. by destruct (JSONRPCCommon.Error tmpR). }
  exists s1, events, (made s), (allocate s1).1.1.
  eexists _, _, res. split; [exact Hcall|]. split.
  { unfold GinTransport.Handler. simpl.
    rewrite (handleMessage_of_response s1 bodyR tmpR k (made s) HdecR HshapeR Hk1 Hne).
    reflexivity. }
  split; [exact Hres|]. split.
  { unfold GinTransport.Handler_resume, baseTransport.handleMessage_resume. simpl.
    rewrite Hrcv1, lookup_insert_eq. simpl. rewrite Hres. reflexivity. }
  split; [reflexivity|]. simpl. split.
  - rewrite delete_insert_eq. by apply delete_id.
  - rewrite Hmade1. generalize dependent (free_key (ResponseMap s1)). intros k2 Hne.
    rewrite Hmap1. apply map_eq. intros i.
    rewrite lookup_delete, !lookup_insert.
    repeat case_decide; subst; try congruence.
Qed.

Lemma posted_response_is_relayed_witness :
  exists s1 events ch s2 message s3 res,
    GinTransport.Handler Samples.serving (Samples.post (Samples.request_body 7))
    = (s1, events, Http.Waiting ch) /\
    GinTransport.Handler s1 (Samples.post (Samples.response_body 0))
    = (s2, [], Http.Delivering ch message) /\
    RawJSON (JObject []) = RawJSON res /\
    GinTransport.Handler_resume s2 ch message
    = Some (s3, [],
            Http.Replied (Http.mkReply 200
              (Http.Data (JObject [("id", JInt 7); ("jsonrpc", JString "2.0");
                                   ("result", res)])))) /\
    GinTransport.Handler_finish s3 baseTransport.handleMessage_sent
    = ([], Http.Replied (Http.mkReply 200 (Http.Data JNull))) /\
    receivers s3 = receivers Samples.serving /\
    ResponseMap s3 = <[free_key (ResponseMap s1) := S ch]> (ResponseMap Samples.serving).
Proof.
  apply (posted_response_is_relayed Samples.serving (Samples.request_body 7)
           (Samples.response_body 0)
           (JSONRPCCommon.mk (Some 7) "2.0" "tools/list" RawNil RawNil None)
           (JSONRPCCommon.mk (Some 0) "2.0" "" RawNil (RawJSON (JObject [])) None) 7 0).
  - split; intros ? ?; simpl; by rewrite lookup_empty.
  - lia.
  - reflexivity.
  - reflexivity.
  - reflexivity.
  - reflexivity.
  - reflexivity.
Defined.



(** X7. A body with a result or an error whose id is the slot that the call
    handling it has just taken is not rejected as unmatched: the call finds
    its own new channel under that id and sends the message on it.  No call
    is suspended in a receive on that channel, which was made by this call and
    is held by no earlier slot; the endpoint has not replied. *)
Theorem body_for_the_new_slot_is_sent_to_itself (s : Bridge.t) body tmp :
  fresh_channels s ->
  Unmarshal_Common body = Ok tmp ->
  baseTransport.shape tmp = baseTransport.IsResponse (free_key (ResponseMap s)) \/
  (exists e, baseTransport.shape tmp = baseTransport.IsError (free_key (ResponseMap s)) e) ->
  exists s1 message,
    baseTransport.handleMessage s body = (s1, [], baseTransport.Sending (made s) message) /\
    GinTransport.Handler s (Samples.post body) = (s1, [], Http.Delivering (made s) message) /\
    receivers s1 !! made s = None /\
    (forall k c, ResponseMap s !! k = Some c -> c <> made s) /\
    (forall k c, ResponseMap s1 !! k = Some c -> c = made s ->
                 k = free_key (ResponseMap s)).
Proof.
  intros [Hfm Hfr] Hdec Hshape.
  assert (receivers s !! made s = None) as Hnone.
  { destruct (receivers s !! made s) as [r|] eqn:Hr; [|done]. specialize (Hfr _ _ Hr). lia. }
  assert (forall k c, ResponseMap s !! k = Some c -> c <> made s) as Hnew.
  { intros k c Hk. specialize (Hfm _ _ Hk). lia. }
  assert (forall k c, <[free_key (ResponseMap s) := made s]> (ResponseMap s) !! k = Some c ->
                      c = made s -> k = free_key (ResponseMap s)) as Hown.
  { intros k c Hk ->. destruct (decide (k = free_key (ResponseMap s))) as [|Hne]; [done|].
    rewrite lookup_insert_ne in Hk by done. by destruct (Hnew _ _ Hk). }
  unfold GinTransport.Handler, baseTransport.handleMessage. simpl. rewrite Hdec.
  destruct Hshape as [Hshape|[e Hshape]]; rewrite Hshape, lookup_insert_eq; simpl;
    by eexists _, _.
Qed.

Lemma body_for_the_new_slot_is_sent_to_itself_witness :
  exists s1 message,
    baseTransport.handleMessage Samples.serving (Samples.response_body 0)
    = (s1, [], baseTransport.Sending (made Samples.serving) message) /\
    GinTransport.Handler Samples.serving (Samples.post (Samples.response_body 0))
    = (s1, [], Http.Delivering (made Samples.serving) message) /\
    receivers s1 !! made Samples.serving = None /\
    (forall k c, ResponseMap Samples.serving !! k = Some c -> c <> made Samples.serving) /\
    (forall k c, ResponseMap s1 !! k = Some c -> c = made Samples.serving ->
                 k = free_key (ResponseMap Samples.serving)).
Proof.
  apply (body_for_the_new_slot_is_sent_to_itself Samples.serving (Samples.response_body 0)
           (JSONRPCCommon.mk (Some 0) "2.0" "" RawNil (RawJSON (JObject [])) None)).
  - split; intros ? ?; simpl; by rewrite lookup_empty.
  - reflexivity.
  - left. reflexivity.
Defined.

(** ** What a delivered message does to the waiting call *)

(** X8. Along every run of a [BaseTransport], a message that [Send] directs
    to a channel carries a response, a call is suspended on that channel, and
    the call ends when it receives the message: it never dereferences a nil
    response, and the handlers of the chi and Gin adapters and of
    [HTTPTransport] reply either 200 with the encoding of the message or, when
    the message cannot be encoded, 500 [Failed to marshal response] after a
    call to the error handler.  Either way the slot of the call has left the
    response map and the call is no longer suspended. *)
Theorem delivered_message_ends_the_call d (s : Bridge.t) message (ch : Chan) :
  rtc (step d) new s ->
  (BaseTransport.Send s message).2 = SendOn ch ->
  exists response s' events reply,
    JsonRpcResponse message = Some response /\
    ResponseMap s !! BaseJSONRPCResponse.Id response = Some ch /\
    ChiTransport.Handler_resume s ch message = Some (s', events, Http.Replied reply) /\
    HTTPTransport.handleRequest_resume s ch message = Some (s', events, Http.Replied reply) /\
    ((exists jsonData, events = [] /\ reply = Http.mkReply 200 (Http.Data jsonData)) \/
     (exists e, events = call_error_handler s ("failed to marshal response: " ++ e)%string /\
                reply = Http.mkReply 500 (Http.Text "Failed to marshal response"))) /\
    step d s s' /\
    ResponseMap s' = delete (BaseJSONRPCResponse.Id response) (ResponseMap s) /\
    receivers s' = delete ch (receivers s).
Proof.
  intros Hrun Hsend. destruct (run_keeps_invariants d s Hrun) as [_ Hheld].
  pose proof Hsend as Hsend'.
  unfold BaseTransport.Send, Send in Hsend.
  destruct (JsonRpcResponse message) as [response|] eqn:Hresp; [|done].
  destruct (ResponseMap s !! BaseJSONRPCResponse.Id response) as [c|] eqn:Hc; [|done].
  simpl in Hsend. injection Hsend as ->.
  destruct (Hheld _ _ Hc) as [p Hp].
  set (k := BaseJSONRPCResponse.Id response) in *.
  set (out := match p with
              | Some id => set_response_id message response id
              | None => message
              end).
  assert (BaseTransport.HandleMessage_resume s ch message
          = Some (release s ch k, Returns (Some out) None)) as Hres.
  { unfold BaseTransport.HandleMessage_resume. rewrite Hp. simpl. subst out.
    destruct p; [by rewrite Hresp|done]. }
  exists response, (release s ch k).
  unfold ChiTransport.Handler_resume, HTTPTransport.handleRequest_resume.
  rewrite Hres. simpl.
  destruct (MarshalJSON out) as [jsonData|e] eqn:Hm.
  - eexists _, _. split; [done|]. split; [done|]. split; [done|]. split; [done|].
    split; [left; by eexists|]. split; [|done].
    by apply (step_answer d s message ch _ _ Hsend' Hres).
  - eexists _, _. split; [done|]. split; [done|]. split; [done|]. split; [done|].
    split; [right; by eexists|]. split; [|done].
    by apply (step_answer d s message ch _ _ Hsend' Hres).
Qed.

Lemma delivered_message_ends_the_call_witness :
  let s1 := (BaseTransport.HandleMessage BaseTransport.plain new (Samples.request_body 7)).1.1 in
  let message := NewBaseMessageResponse (Samples.a_response 0) in
  exists response s' events reply,
    JsonRpcResponse message = Some response /\
    ResponseMap s1 !! BaseJSONRPCResponse.Id response = Some 0%nat /\
    ChiTransport.Handler_resume s1 0%nat message = Some (s', events, Http.Replied reply) /\
    HTTPTransport.handleRequest_resume s1 0%nat message
    = Some (s', events, Http.Replied reply) /\
    ((exists jsonData, events = [] /\ reply = Http.mkReply 200 (Http.Data jsonData)) \/
     (exists e, events = call_error_handler s1 ("failed to marshal response: " ++ e)%string /\
                reply = Http.mkReply 500 (Http.Text "Failed to marshal response"))) /\
    step BaseTransport.plain s1 s' /\
    ResponseMap s' = delete (BaseJSONRPCResponse.Id response) (ResponseMap s1) /\
    receivers s' = delete 0%nat (receivers s1).
Proof.
  intros s1 message.
  apply (delivered_message_ends_the_call BaseTransport.plain s1 message 0%nat).
  - apply rtc_once. apply step_handle.
  - reflexivity.
Defined.

(** ** The structs of [types.go] through [json.Marshal] and [json.Unmarshal] *)



(** ** [HTTPClientTransport.Send] *)

Lemma Send_reply_events d (h : bool) (body : option Body) :
  let '(events, err) := HTTPClientTransport.Send_reply d h body in
  (events = [] \/ exists m, events = [OnMessage m] /\ h = true /\ err = None) /\
  (err = None \/ (events = [] /\ exists b, body = Some b)).
Proof.
  unfold HTTPClientTransport.Send_reply, HTTPClientTransport.call.
  destruct body as [b|]; [|by split; left].
  destruct (BaseTransport.as_response d b);
    [destruct h; (split; [|by left]); [right; by eexists | by left]|].
  destruct (BaseTransport.as_error d b);
    [destruct h; (split; [|by left]); [right; by eexists | by left]|].
  destruct (BaseTransport.as_notification d b);
    [destruct h; (split; [|by left]); [right; by eexists | by left]|].
  destruct (BaseTransport.as_request d b);
    [destruct h; (split; [|by left]); [right; by eexists | by left]|].
  split; [by left|]. right. split; [done|by eexists].
Qed.

(** X10. [Send] of the client transport makes one POST, of the encoded
    message to [baseURL] followed by [endpoint]; a message that cannot be
    encoded is an error whatever the server would do.  The message handler is
    called at most once, only when one is installed and the server answered
    200 with a body that is not empty, and [Send] then returns no error; a
    reply with any other status is an error and is not shown to the handler.
    [Send] returns no error only for a reply of status 200.  No other callback
    is called. *)
Theorem client_Send_outcomes d (t0 : HTTPClient.t) client message events err :
  HTTPClient.Send d t0 client message = (events, err) ->
  (* the handler is called at most once, and only on a 200 with a body *)
  (events = [] \/
   exists m jsonData body,
     events = [OnMessage m] /\ err = None /\ HTTPClient.messageHandler t0 = true /\
     Marshal_Message message = Ok jsonData /\
     client (HTTPClient.mkPost (HTTPClient.baseURL t0 ++ HTTPClient.endpoint t0)%string
               "application/json" (HTTPClient.headers t0) jsonData)
     = HTTPClient.Answered 200 (Some body)) /\
  (* no error means that the server answered 200 *)
  (err = None ->
   exists jsonData body,
     Marshal_Message message = Ok jsonData /\
     client (HTTPClient.mkPost (HTTPClient.baseURL t0 ++ HTTPClient.endpoint t0)%string
               "application/json" (HTTPClient.headers t0) jsonData)
     = HTTPClient.Answered 200 body) /\
  (* a message that cannot be encoded is not posted *)
  (forall e, Marshal_Message message = Err e ->
     forall client', HTTPClient.Send d t0 client' message
                     = ([], Some (HTTPClient.FailedToMarshalMessage e))).
Proof.
  unfold HTTPClient.Send. intros Hsend. split; [|split].
  - destruct (Marshal_Message message) as [jsonData|e]; [|injection Hsend as <- <-; by left].
    destruct (client _) as [e|e|e|status body] eqn:Hc; try (injection Hsend as <- <-; by left).
    destruct (decide (status = Http.StatusOK)) as [->|]; [|injection Hsend as <- <-; by left].
    pose proof (Send_reply_events d (HTTPClient.messageHandler t0) body) as Hr.
    destruct (HTTPClientTransport.Send_reply d (HTTPClient.messageHandler t0) body)
      as [ev [e|]] eqn:Hreply; injection Hsend as <- <-.
    + destruct Hr as [[->|(m & _ & _ & He)] _]; [by left|done].
    + destruct Hr as [[->|(m & -> & Hh & _)] _]; [by left|]. right.
      destruct body as [body|]; [|by injection Hreply].
      by exists m, jsonData, body.
  - intros ->.
    destruct (Marshal_Message message) as [jsonData|e]; [|done].
    destruct (client _) as [e|e|e|status body] eqn:Hc; try done.
    destruct (decide (status = Http.StatusOK)) as [->|]; [|done].
    by exists jsonData, body.
  - intros e -> client'. done.
Qed.

Lemma client_Send_outcomes_witness :
  let t0 := HTTPClient.SetMessageHandler
              (HTTPClient.WithBaseURL (HTTPClient.NewHTTPClientTransport "/mcp")
                 "http://localhost:8080") in
  let client := fun _ : HTTPClient.Post =>
                  HTTPClient.Answered 500 (Some (Samples.error_body 1)) in
  let message := Some (NewBaseMessageRequest (Samples.a_request 1)) in
  HTTPClient.Send BaseTransport.plain t0 client message
  = ([], Some (HTTPClient.ServerReturnedError (Some (Samples.error_body 1)) 500)) /\
  (@nil Event = [] \/
   exists m jsonData body,
     @nil Event = [OnMessage m] /\
     Some (HTTPClient.ServerReturnedError (Some (Samples.error_body 1)) 500) = None /\
     HTTPClient.messageHandler t0 = true /\
     Marshal_Message message = Ok jsonData /\
     client (HTTPClient.mkPost (HTTPClient.baseURL t0 ++ HTTPClient.endpoint t0)%string
               "application/json" (HTTPClient.headers t0) jsonData)
     = HTTPClient.Answered 200 (Some body)).
Proof.
  intros t0 client message. split; [reflexivity|].
  apply (proj1 (client_Send_outcomes BaseTransport.plain t0 client message [] _ eq_refl)).
Defined.

(** ** A request from the client transport to the endpoint and back *)



(** ** The receive-only transport of [http.go] *)

(** X12. The transport of [http.go] that only receives never waits.  A body
    that decodes as a request with an id other than 0 is shown to the handler
    as that request, id unchanged, and answered 200 with an empty body; a
    request whose id is 0 is never shown to the handler as a request; and
    [Send] is an error for every message, so no response follows. *)
Theorem receive_only_requests d (s : Bridge.t) body request :
  BaseTransport.as_request d body = Ok request ->
  (BaseJSONRPCRequest.Id request <> 0 ->
   HTTPTransport.handleRequest_receive_only d s (Samples.post body)
   = (call_handler s (NewBaseMessageRequest request), Http.mkReply 200 Http.Empty)) /\
  (BaseJSONRPCRequest.Id request = 0 ->
   forall m, In (OnMessage m) (HTTPTransport.handleRequest_receive_only d s (Samples.post body)).1 ->
             JsonRpcRequest m = None) /\
  (forall message, HTTPTransport.Send_receive_only message <> None).
Proof.
  intros Hreq. unfold HTTPTransport.handleRequest_receive_only. simpl. rewrite Hreq.
  split; [|split].
  - intros Hid. by rewrite decide_False.
  - intros Hid. rewrite decide_True by done. intros m.
    unfold call_handler, call_error_handler.
    destruct (BaseTransport.as_notification d body);
      [destruct (MessageHandler s); simpl; [intros [[= <-]|[]]; done | done]|].
    destruct (BaseTransport.as_response d body);
      [destruct (MessageHandler s); simpl; [intros [[= <-]|[]]; done | done]|].
    destruct (BaseTransport.as_error d body);
      [destruct (MessageHandler s); simpl; [intros [[= <-]|[]]; done | done]|].
    destruct (ErrorHandler s); simpl; [intros [[=]|[]] | done].
  - done.
Qed.

Lemma receive_only_requests_witness :
  HTTPTransport.handleRequest_receive_only BaseTransport.plain Samples.serving
    (Samples.post (Samples.request_body 7))
  = (call_handler Samples.serving (NewBaseMessageRequest (Samples.a_request 7)),
     Http.mkReply 200 Http.Empty) /\
  (forall m,
     In (OnMessage m)
        (HTTPTransport.handleRequest_receive_only BaseTransport.plain Samples.serving
           (Samples.post (Samples.request_body 0))).1 ->
     JsonRpcRequest m = None).
Proof.
  split.
  - apply (proj1 (receive_only_requests BaseTransport.plain Samples.serving
                    (Samples.request_body 7) (Samples.a_request 7) eq_refl)).
    discriminate.
  - apply (proj1 (proj2 (receive_only_requests BaseTransport.plain Samples.serving
                           (Samples.request_body 0) (Samples.a_request 0) eq_refl))).
    reflexivity.
Defined.

(** ** Slots left behind by calls that do not wait *)

Lemma returns_at_once_state (s : Bridge.t) body :
  returns_at_once body = true ->
  let s1 := (baseTransport.handleMessage s body).1.1 in
  ResponseMap s1 = <[free_key (ResponseMap s) := made s]> (ResponseMap s) /\
  receivers s1 = receivers s /\ made s1 = S (made s) /\
  exists response err, (baseTransport.handleMessage s body).2 = baseTransport.Returned response err.
Proof.
  unfold returns_at_once, baseTransport.handleMessage. simpl.
  destruct (Unmarshal_Common body) as [tmp|e]; [|intros _; simpl; by eauto 10].
  destruct (baseTransport.shape tmp); try done; intros _; simpl; by eauto 10.
Qed.

Lemma free_key_of_prefix (m : gmap Z Chan) (n : Z) :
  0 <= n ->
  (forall k, is_Some (m !! k) <-> 0 <= k < Z.min n 1000001) ->
  free_key m = Z.min n 1000000.
Proof.
  intros Hn Hdom. apply free_key_char. unfold slot_limit. split; [lia|]. split.
  - intros j Hj. apply Hdom. lia.
  - intros Hlt. destruct (m !! Z.min n 1000000) eqn:Hk; [|done].
    assert (is_Some (m !! Z.min n 1000000)) as Hs by (by eexists).
    apply Hdom in Hs. lia.
Qed.

Lemma handle_all_state (bodies : list Body) :
  Forall (fun body => returns_at_once body = true) bodies ->
  let s := handle_all new bodies in
  receivers s = ∅ /\
  made s = length bodies /\
  forall k, is_Some (ResponseMap s !! k) <->
            0 <= k < Z.min (Z.of_nat (length bodies)) 1000001.
Proof.
  induction bodies as [|body bodies IH] using rev_ind; intros Hall.
  - simpl. split; [done|]. split; [done|]. intros k. rewrite lookup_empty.
    split; [by intros [? ?]|lia].
  - apply Forall_app in Hall as [Hall Hbody]. apply Forall_inv in Hbody.
    destruct (IH Hall) as (Hrcv & Hmade & Hdom). clear IH.
    unfold handle_all in *. rewrite foldl_app. simpl.
    set (s := foldl _ new bodies) in *.
    destruct (returns_at_once_state s body Hbody) as (Hmap1 & Hrcv1 & Hmade1 & _).
    rewrite Hrcv1, Hmade1, Hmap1, length_app. simpl.
    split; [done|]. split; [lia|].
    set (n := Z.of_nat (length bodies)) in *.
    rewrite (free_key_of_prefix (ResponseMap s) n) by (done || lia).
    intros k. rewrite lookup_insert. case_decide as Hk.
    + split; [intros _; lia|by eexists].
    + rewrite Hdom. lia.
Qed.

(** X13. On [baseTransport], calls of [handleMessage] that do not wait --
    notifications, bodies that are not JSON or of no known kind -- never give
    their slot back: after [n] such calls on a new transport no call is
    suspended and the response map holds exactly the slots below [n], up to
    slot 1000000, where it stays; the next call takes slot [n], or slot
    1000000 once that many calls have been made, and a request that comes
    then waits under that slot. *)
Theorem calls_that_return_fill_the_map (bodies : list Body) :
  Forall (fun body => returns_at_once body = true) bodies ->
  let s := handle_all new bodies in
  receivers s = ∅ /\
  made s = length bodies /\
  (forall k, is_Some (ResponseMap s !! k) <->
             0 <= k < Z.min (Z.of_nat (length bodies)) 1000001) /\
  free_key (ResponseMap s) = Z.min (Z.of_nat (length bodies)) 1000000 /\
  forall body tmp id,
    Unmarshal_Common body = Ok tmp ->
    baseTransport.shape tmp = baseTransport.IsRequest id ->
    exists s1 events,
      baseTransport.handleMessage s body
      = (s1, events, baseTransport.Receiving (length bodies)) /\
      receivers s1
      = {[ length bodies
           := mkReceiver (Z.min (Z.of_nat (length bodies)) 1000000) (Some id) ]}.
Proof.
  intros Hall s. destruct (handle_all_state bodies Hall) as (Hrcv & Hmade & Hdom).
  fold s in Hrcv, Hmade, Hdom.
  assert (free_key (ResponseMap s) = Z.min (Z.of_nat (length bodies)) 1000000) as Hkey
    by (apply free_key_of_prefix; [lia|done]).
  split; [done|]. split; [done|]. split; [done|]. split; [done|].
  intros body tmp id Hdec Hshape.
  rewrite (handleMessage_of_request s body tmp id Hdec Hshape), Hmade, Hkey.
  eexists _, _. split; [reflexivity|]. simpl. by rewrite Hrcv.
Qed.

Lemma calls_that_return_fill_the_map_witness :
  let bodies := [Samples.notification_body; Samples.invalid_json; Samples.notification_body] in
  let s := handle_all new bodies in
  Forall (fun body => returns_at_once body = true) bodies /\
  receivers s = ∅ /\
  made s = length bodies /\
  (forall k, is_Some (ResponseMap s !! k) <->
             0 <= k < Z.min (Z.of_nat (length bodies)) 1000001) /\
  free_key (ResponseMap s) = Z.min (Z.of_nat (length bodies)) 1000000 /\
  forall body tmp id,
    Unmarshal_Common body = Ok tmp ->
    baseTransport.shape tmp = baseTransport.IsRequest id ->
    exists s1 events,
      baseTransport.handleMessage s body
      = (s1, events, baseTransport.Receiving (length bodies)) /\
      receivers s1
      = {[ length bodies
           := mkReceiver (Z.min (Z.of_nat (length bodies)) 1000000) (Some id) ]}.
Proof.
  intros bodies s.
  assert (Forall (fun body => returns_at_once body = true) bodies) as Hall
    by (repeat constructor).
  split; [exact Hall|]. exact (calls_that_return_fill_the_map bodies Hall).
Defined.

(** X14. On a [baseTransport] that has only handled bodies it did not wait
    for, a body with a result or an error is answered 500 only when its id
    names no slot left behind.  When the id is one of those slots, or the slot
    the call itself has just taken, the call sends the message on the channel
    found there, on which nobody receives: no call is suspended on the
    transport, and the endpoint does not reply. *)
Theorem response_for_a_slot_left_behind (bodies : list Body) body tmp (id : RequestId) :
  Forall (fun body => returns_at_once body = true) bodies ->
  Unmarshal_Common body = Ok tmp ->
  baseTransport.shape tmp = baseTransport.IsResponse id \/
  (exists e, baseTransport.shape tmp = baseTransport.IsError id e) ->
  let s := handle_all new bodies in
  (0 <= id <= Z.min (Z.of_nat (length bodies)) 1000000 ->
   exists s1 ch message,
     GinTransport.Handler s (Samples.post body) = (s1, [], Http.Delivering ch message) /\
     ResponseMap s1 !! id = Some ch /\
     receivers s1 = ∅) /\
  (~ 0 <= id <= Z.min (Z.of_nat (length bodies)) 1000000 ->
   exists s1 err,
     GinTransport.Handler s (Samples.post body)
     = (s1, [], Http.Replied (Http.mkReply 500 (Http.Text err)))).
Proof.
  intros Hall Hdec Hshape s.
  destruct (handle_all_state bodies Hall) as (Hrcv & Hmade & Hdom). fold s in Hrcv, Hmade, Hdom.
  set (n := Z.of_nat (length bodies)) in *.
  assert (free_key (ResponseMap s) = Z.min n 1000000) as Hkey
    by (apply free_key_of_prefix; [lia|done]).
  unfold GinTransport.Handler, baseTransport.handleMessage. simpl. rewrite Hdec, Hkey.
  split.
  - intros Hid.
    assert (is_Some (<[Z.min n 1000000 := made s]> (ResponseMap s) !! id)) as [ch Hch].
    { rewrite lookup_insert. case_decide; [by eexists|]. apply Hdom. lia. }
    destruct Hshape as [Hshape|[e Hshape]]; rewrite Hshape, Hch; simpl; by eexists _, _, _.
  - intros Hid.
    assert (<[Z.min n 1000000 := made s]> (ResponseMap s) !! id = None) as Hnone.
    { rewrite lookup_insert. case_decide; [lia|].
      destruct (ResponseMap s !! id) eqn:Hk; [|done].
      assert (is_Some (ResponseMap s !! id)) as Hs by (by eexists).
      apply Hdom in Hs. lia. }
    destruct Hshape as [Hshape|[e Hshape]]; rewrite Hshape, Hnone; simpl; by eexists _, _.
Qed.

Lemma response_for_a_slot_left_behind_witness :
  let bodies := [Samples.notification_body; Samples.invalid_json] in
  let s := handle_all new bodies in
  (exists s1 ch message,
     GinTransport.Handler s (Samples.post (Samples.response_body 1))
     = (s1, [], Http.Delivering ch message) /\
     ResponseMap s1 !! 1 = Some ch /\
     receivers s1 = ∅) /\
  (exists s1 err,
     GinTransport.Handler s (Samples.post (Samples.response_body 5))
     = (s1, [], Http.Replied (Http.mkReply 500 (Http.Text err)))).
Proof.
  intros bodies s.
  assert (Forall (fun body => returns_at_once body = true) bodies) as Hall
    by (repeat constructor).
  split.
  - apply (proj1 (response_for_a_slot_left_behind bodies (Samples.response_body 1)
                    (JSONRPCCommon.mk (Some 1) "2.0" "" RawNil (RawJSON (JObject [])) None) 1
                    Hall eq_refl (or_introl eq_refl))).
    simpl. lia.
  - apply (proj2 (response_for_a_slot_left_behind bodies (Samples.response_body 5)
                    (JSONRPCCommon.mk (Some 5) "2.0" "" RawNil (RawJSON (JObject [])) None) 5
                    Hall eq_refl (or_introl eq_refl))).
    simpl. lia.
Defined.
